(** * app_nutri: client records, appointments, CSV/PDF export and weekly digest

    A shallow embedding of [src/app_nutri.py].  Python text is a [string]
    (the bytes SQLite stores); character classes ([str.strip], [int]) are
    the ASCII ones.  Integers are [Z].  Code that can raise returns a
    [result]; the SQLite file is a [database] value threaded through the
    handlers of [MainWindow]. *)

From Stdlib Require Import ZArith List Bool Ascii String Lia Sorted Permutation.
Import ListNotations.

Local Open Scope string_scope.
Local Open Scope Z_scope.

(* ================================================================== *)
(** ** Exceptions *)

Inductive exn : Type :=
| ValueError | TypeError | KeyError | OverflowError | IntegrityError
| CsvError | FileNotFoundError.

Inductive result (A : Type) : Type :=
| Ok (a : A)
| Raise (e : exn).
Arguments Ok {A} a.
Arguments Raise {A} e.

Definition bind {A B} (r : result A) (k : A -> result B) : result B :=
  match r with
  | Ok a => k a
  | Raise e => Raise e
  end.

Notation "x <- r ;; k" := (bind r (fun x => k))
  (at level 61, r at next level, right associativity).

(** [try: body except Exception: handler]. *)
Definition try_except {A} (body : result A) (handler : exn -> result A) : result A :=
  match body with
  | Ok a => Ok a
  | Raise e => handler e
  end.

(* ================================================================== *)
(** ** Python text primitives *)

Module Py.

(** [str.isspace] per character, ASCII range: TAB..CR, FS..US, SPACE. *)
Definition isspace (c : ascii) : bool :=
  let n := nat_of_ascii c in
  (((9 <=? n) && (n <=? 13)) || ((28 <=? n) && (n <=? 31)) || (n =? 32))%nat.

Fixpoint lstrip (s : string) : string :=
  match s with
  | EmptyString => EmptyString
  | String c s' => if isspace c then lstrip s' else s
  end.

Fixpoint rstrip (s : string) : string :=
  match s with
  | EmptyString => EmptyString
  | String c s' =>
      match rstrip s' with
      | EmptyString => if isspace c then EmptyString else String c EmptyString
      | r => String c r
      end
  end.

(** [s.strip()] *)
Definition strip (s : string) : string := rstrip (lstrip s).

(** [s.split(sep)] for a one-character separator. *)
Fixpoint split (sep : ascii) (s : string) : list string :=
  match s with
  | EmptyString => [EmptyString]
  | String c s' =>
      if Ascii.eqb c sep then EmptyString :: split sep s'
      else match split sep s' with
           | p :: ps => String c p :: ps
           | [] => [String c EmptyString]
           end
  end.

(** [sep.join(parts)] *)
Fixpoint join (sep : string) (parts : list string) : string :=
  match parts with
  | [] => EmptyString
  | [p] => p
  | p :: ps => p ++ sep ++ join sep ps
  end.

(** [s.replace(old, new)]: every non-overlapping occurrence of [old],
    scanning from the left ([old] non-empty). *)
Fixpoint drop (n : nat) (s : string) : string :=
  match n, s with
  | O, _ => s
  | S n', String _ s' => drop n' s'
  | S _, EmptyString => EmptyString
  end.

Fixpoint replace_fuel (fuel : nat) (old new s : string) : string :=
  match fuel with
  | O => s
  | S fuel' =>
      match s with
      | EmptyString => EmptyString
      | String c s' =>
          if prefix old s
          then new ++ replace_fuel fuel' old new (drop (String.length old) s)
          else String c (replace_fuel fuel' old new s')
      end
  end.

Definition replace (old new s : string) : string :=
  replace_fuel (String.length s) old new s.

(** *** Integers: [int(s)], [str(n)], [format(n, "02d")] *)

Definition is_digit (c : ascii) : bool :=
  let n := nat_of_ascii c in ((48 <=? n) && (n <=? 57))%nat.

Definition digit_val (c : ascii) : Z := Z.of_nat (nat_of_ascii c) - 48.

Definition digit_char (d : Z) : ascii := ascii_of_nat (48 + Z.to_nat d).

(** Digits of an integer literal after the sign: decimal digits, with
    single underscores allowed between digits.  [prev] tells whether the
    previous character was a digit. *)
Fixpoint int_digits (prev : bool) (acc : Z) (s : string) : option Z :=
  match s with
  | EmptyString => if prev then Some acc else None
  | String c s' =>
      if is_digit c then int_digits true (10 * acc + digit_val c) s'
      else if Ascii.eqb c "_" then
             if prev then int_digits false acc s' else None
           else None
  end.

(** [int(s)] for a [str] argument, base 10; [None] is [ValueError]. *)
Definition int_opt (s : string) : option Z :=
  match strip s with
  | String "-" r => option_map Z.opp (int_digits false 0 r)
  | String "+" r => int_digits false 0 r
  | r => int_digits false 0 r
  end.

Definition int (s : string) : result Z :=
  match int_opt s with
  | Some z => Ok z
  | None => Raise ValueError
  end.

Fixpoint digits_fuel (fuel : nat) (n : Z) (acc : string) : string :=
  match fuel with
  | O => acc
  | S fuel' =>
      let acc' := String (digit_char (n mod 10)) acc in
      if n <? 10 then acc' else digits_fuel fuel' (n / 10) acc'
  end.

(** Decimal digits of [n >= 0]. *)
Definition str_nat (n : Z) : string :=
  digits_fuel (S (Z.to_nat (Z.log2 n))) n EmptyString.

(** [str(n)] *)
Definition str (n : Z) : string :=
  if n <? 0 then String "-" (str_nat (- n)) else str_nat n.

Fixpoint zeros (k : nat) : string :=
  match k with
  | O => EmptyString
  | S k' => String "0" (zeros k')
  end.

(** Zero padding of a digit string on the left up to [width]. *)
Definition zfill (width : nat) (s : string) : string :=
  zeros (width - String.length s) ++ s.

(** [f"{n:02d}"]: sign-aware zero padding to total width 2. *)
Definition fmt02 (n : Z) : string :=
  if n <? 0 then String "-" (zfill 1 (str_nat (- n))) else zfill 2 (str_nat n).

End Py.

(* ================================================================== *)
(** ** Date helpers (module level) *)

(** [y, m, d = map(int, s.split("-"))]: three parts, each an integer
    literal; any other shape raises [ValueError]. *)
Definition unpack_ymd (s : string) : result (Z * Z * Z) :=
  match Py.split "-" s with
  | [a; b; c] =>
      y <- Py.int a ;; m <- Py.int b ;; d <- Py.int c ;; Ok (y, m, d)
  | _ => Raise ValueError
  end.

Definition render_dmy (y m d : Z) : string :=
  Py.fmt02 d ++ "/" ++ Py.fmt02 m ++ "/" ++ Py.str y.


(** The value [human_date] returns. *)
Definition human_date (s : string) : string :=
  match unpack_ymd s with
  | Ok (y, m, d) => render_dmy y m d
  | Raise _ => s
  end.

(* ================================================================== *)
(** ** Calendar dates *)

Record date : Type := mkDate { year : Z; month : Z; day : Z }.

Definition is_leap (y : Z) : bool :=
  (y mod 4 =? 0) && (negb (y mod 100 =? 0) || (y mod 400 =? 0)).

Definition days_in_month (y m : Z) : Z :=
  if m =? 2 then (if is_leap y then 29 else 28)
  else if (m =? 4) || (m =? 6) || (m =? 9) || (m =? 11) then 30
  else 31.

(** Tuple order on (year, month, day): how both [dt.date] and [QDate]
    compare. *)
Definition date_ltb (a b : date) : bool :=
  (year a <? year b)
  || ((year a =? year b)
      && ((month a <? month b)
          || ((month a =? month b) && (day a <? day b)))).

Definition date_eqb (a b : date) : bool :=
  (year a =? year b) && (month a =? month b) && (day a =? day b).

Definition date_leb (a b : date) : bool := date_ltb a b || date_eqb a b.

Module Dt.

Definition MINYEAR : Z := 1.
Definition MAXYEAR : Z := 9999.

Definition valid (y m d : Z) : bool :=
  (MINYEAR <=? y) && (y <=? MAXYEAR) && (1 <=? m) && (m <=? 12)
  && (1 <=? d) && (d <=? days_in_month y m).

(** [dt.date(y, m, d)] *)
Definition date_ (y m d : Z) : result date :=
  if valid y m d then Ok (mkDate y m d) else Raise ValueError.

(** [x + dt.timedelta(days=1)] *)
Definition next_day (x : date) : result date :=
  if day x <? days_in_month (year x) (month x)
  then Ok (mkDate (year x) (month x) (day x + 1))
  else if month x <? 12 then Ok (mkDate (year x) (month x + 1) 1)
  else if year x <? MAXYEAR then Ok (mkDate (year x + 1) 1 1)
  else Raise OverflowError.

(** [x + dt.timedelta(days=n)] *)
Fixpoint add_days (n : nat) (x : date) : result date :=
  match n with
  | O => Ok x
  | S n' => y <- next_day x ;; add_days n' y
  end.

End Dt.

Module Q.

(** A [QDate] is either invalid (null) or a calendar date. *)
Definition QDate : Type := option date.

Definition leap_year (y : Z) : bool := is_leap (if y <? 1 then y + 1 else y).

Definition days_in_month (y m : Z) : Z :=
  if m =? 2 then (if leap_year y then 29 else 28)
  else if (m =? 4) || (m =? 6) || (m =? 9) || (m =? 11) then 30
  else 31.

Definition valid (y m d : Z) : bool :=
  negb (y =? 0) && (1 <=? m) && (m <=? 12) && (1 <=? d) && (d <=? days_in_month y m).

(** [QDate(y, m, d)] *)
Definition make (y m d : Z) : QDate :=
  if valid y m d then Some (mkDate y m d) else None.

(** [qd.toString("yyyy-MM-dd")] of a valid date. *)
Definition toString_iso (x : date) : string :=
  (if year x <? 0 then "-" else "")
  ++ Py.zfill 4 (Py.str_nat (Z.abs (year x)))
  ++ "-" ++ Py.zfill 2 (Py.str_nat (month x))
  ++ "-" ++ Py.zfill 2 (Py.str_nat (day x)).

(** Bounds of a [QDateEdit]. *)
Definition DATE_MIN : date := mkDate 1752 9 14.
Definition DATE_MAX : date := mkDate 9999 12 31.

Definition in_edit_range (x : date) : bool :=
  date_leb DATE_MIN x && date_leb x DATE_MAX.

(** [QDateEdit.setDate]: ignores an invalid date, bounds a valid one. *)
Definition setDate (cur : date) (qd : QDate) : date :=
  match qd with
  | None => cur
  | Some x =>
      if date_ltb x DATE_MIN then DATE_MIN
      else if date_ltb DATE_MAX x then DATE_MAX
      else x
  end.

(** [QSpinBox.setValue] with range [lo..hi]. *)
Definition setValue (lo hi v : Z) : Z := Z.max lo (Z.min hi v).

End Q.

Definition qdate_to_str (qd : Q.QDate) : string :=
  match qd with
  | None => ""
  | Some x => Q.toString_iso x
  end.

Definition str_to_qdate (s : string) : Q.QDate :=
  match unpack_ymd s with
  | Ok (y, m, d) => Q.make y m d
  | Raise _ => None
  end.

(* ================================================================== *)
(** ** The database *)

(** Status and kind literals of the schema. *)
Definition AGENDADO : string := "agendado".
Definition RETORNO : string := "retorno".

(** A row of [clients]; nullable columns are options. *)
Record client : Type := mkClient {
  c_id : Z;
  c_name : string;
  c_age : option Z;
  c_whatsapp : option string;
  c_first_consult : option string;
  c_plan_months : option Z;
  c_paid_returns : option Z;
  c_rescheduled : option Z;
  c_notes : option string;
  c_hidden : option Z
}.

(** A row of [appointments]. *)
Record appointment : Type := mkAppt {
  a_id : Z;
  a_client_id : Z;
  a_date : string;
  a_kind : option string;
  a_status : option string
}.

(** Both tables in rowid order, with their AUTOINCREMENT counters
    ([sqlite_sequence]). *)
Record database : Type := mkDb {
  clients : list client;
  appointments : list appointment;
  clients_seq : Z;
  appointments_seq : Z
}.

Definition DEFAULT_paid_returns : Z := 0.
Definition DEFAULT_rescheduled : Z := 0.
Definition DEFAULT_hidden : Z := 0.

(** [CREATE TABLE IF NOT EXISTS]: a missing file becomes two empty tables. *)
Definition empty_db : database := mkDb [] [] 0 0.

Definition ensure_db (file : option database) : database :=
  match file with
  | Some db => db
  | None => empty_db
  end.

Module Sql.

Definition max_id {A} (id : A -> Z) (rows : list A) : Z :=
  fold_right (fun r m => Z.max (id r) m) 0 rows.

(** Rowid an AUTOINCREMENT table gives to the next row. *)
Definition next_id {A} (id : A -> Z) (rows : list A) (seq : Z) : Z :=
  Z.max seq (max_id id rows) + 1.

(** Row placed at its rowid position. *)
Fixpoint place {A} (id : A -> Z) (r : A) (rows : list A) : list A :=
  match rows with
  | [] => [r]
  | x :: xs => if id r <? id x then r :: x :: xs else x :: place id r xs
  end.

Definition has_id {A} (id : A -> Z) (k : Z) (rows : list A) : bool :=
  existsb (fun r => id r =? k) rows.

(** [status = 'agendado'] (NULL compares unknown). *)
Definition is_scheduled (a : appointment) : bool :=
  match a_status a with
  | Some s => String.eqb s AGENDADO
  | None => false
  end.

(** [INSERT INTO clients (name, ..., hidden) VALUES (...)]; returns
    [cur.lastrowid]. *)
Definition insert_client
  (name : string) (age : Z) (whats first : string) (plan paid resch : Z)
  (notes : string) (hidden : Z) (db : database) : database * Z :=
  let k := next_id c_id (clients db) (clients_seq db) in
  (mkDb (clients db ++ [mkClient k name (Some age) (Some whats) (Some first)
                          (Some plan) (Some paid) (Some resch) (Some notes)
                          (Some hidden)])%list
        (appointments db) k (appointments_seq db), k).

(** [INSERT INTO appointments (client_id, date, kind, status)
     VALUES (?, ?, 'retorno', 'agendado')] *)
Definition insert_scheduled (cid : Z) (d : string) (db : database) : database :=
  let k := next_id a_id (appointments db) (appointments_seq db) in
  mkDb (clients db)
       (appointments db ++ [mkAppt k cid d (Some RETORNO) (Some AGENDADO)])%list
       (clients_seq db) k.

(** The [for] loop over the form list. *)
Definition insert_scheduled_all (cid : Z) (ds : list string) (db : database)
  : database :=
  fold_left (fun acc d => insert_scheduled cid d acc) ds db.

(** [UPDATE clients SET name=?, ..., hidden=? WHERE id=?] *)
Definition update_client
  (cid : Z) (name : string) (age : Z) (whats first : string)
  (plan paid resch : Z) (notes : string) (hidden : Z) (db : database)
  : database :=
  mkDb (map (fun c =>
               if c_id c =? cid
               then mkClient (c_id c) name (Some age) (Some whats) (Some first)
                      (Some plan) (Some paid) (Some resch) (Some notes)
                      (Some hidden)
               else c) (clients db))
       (appointments db) (clients_seq db) (appointments_seq db).

(** [DELETE FROM appointments WHERE client_id=? AND status='agendado'] *)
Definition delete_scheduled (cid : Z) (db : database) : database :=
  mkDb (clients db)
       (filter (fun a => negb ((a_client_id a =? cid) && is_scheduled a))
               (appointments db))
       (clients_seq db) (appointments_seq db).

(** [DELETE FROM appointments WHERE client_id=?] *)
Definition delete_appointments_of (cid : Z) (db : database) : database :=
  mkDb (clients db)
       (filter (fun a => negb (a_client_id a =? cid)) (appointments db))
       (clients_seq db) (appointments_seq db).

(** [DELETE FROM clients WHERE id=?] *)
Definition delete_client (cid : Z) (db : database) : database :=
  mkDb (filter (fun c => negb (c_id c =? cid)) (clients db))
       (appointments db) (clients_seq db) (appointments_seq db).

(** [DELETE FROM appointments] then [DELETE FROM clients]; the counters
    stay. *)
Definition delete_all (db : database) : database :=
  mkDb [] [] (clients_seq db) (appointments_seq db).

(** [SELECT ... FROM clients WHERE id=?] then [fetchone()]. *)
Definition client_by_id (cid : Z) (db : database) : option client :=
  find (fun c => c_id c =? cid) (clients db).

(** Stable insertion sort, the [ORDER BY] of the queries. *)
Fixpoint insert_by {A} (le : A -> A -> bool) (x : A) (l : list A) : list A :=
  match l with
  | [] => [x]
  | y :: ys => if le x y then x :: y :: ys else y :: insert_by le x ys
  end.

Definition order_by {A} (le : A -> A -> bool) (l : list A) : list A :=
  fold_right (insert_by le) [] l.

(** [SELECT date FROM appointments WHERE client_id=? AND status='agendado'
     ORDER BY date ASC] *)
Definition scheduled_dates (cid : Z) (db : database) : list string :=
  order_by String.leb
    (map a_date
       (filter (fun a => (a_client_id a =? cid) && is_scheduled a)
               (appointments db))).

(** [COLLATE NOCASE]: upper-case ASCII letters fold to lower case. *)
Definition fold_case (c : ascii) : ascii :=
  let n := nat_of_ascii c in
  if ((65 <=? n) && (n <=? 90))%nat then ascii_of_nat (n + 32) else c.

Fixpoint nocase (s : string) : string :=
  match s with
  | EmptyString => EmptyString
  | String c s' => String (fold_case c) (nocase s')
  end.

(** Ascending order of an INTEGER column: NULL first. *)
Definition int_cmp (a b : option Z) : comparison :=
  match a, b with
  | None, None => Eq
  | None, Some _ => Lt
  | Some _, None => Gt
  | Some x, Some y => Z.compare x y
  end.

(** [ORDER BY hidden ASC, name COLLATE NOCASE ASC] *)
Definition hidden_name_le (a b : client) : bool :=
  match int_cmp (c_hidden a) (c_hidden b) with
  | Lt => true
  | Gt => false
  | Eq => String.leb (nocase (c_name a)) (nocase (c_name b))
  end.

(** [ORDER BY name COLLATE NOCASE ASC] *)
Definition name_le (a b : client) : bool :=
  String.leb (nocase (c_name a)) (nocase (c_name b)).

(** [SELECT ... FROM clients ORDER BY hidden ASC, name COLLATE NOCASE ASC] *)
Definition clients_by_hidden_name (db : database) : list client :=
  order_by hidden_name_le (clients db).

(** [SELECT ... FROM clients c WHERE c.hidden=0
     ORDER BY c.name COLLATE NOCASE ASC] *)
Definition is_visible (c : client) : bool :=
  match c_hidden c with
  | Some h => h =? 0
  | None => false
  end.

Definition visible_clients_by_name (db : database) : list client :=
  order_by name_le (filter is_visible (clients db)).

(** [INSERT INTO clients (id, name, ..., hidden) VALUES (...)] with an
    explicit id: the primary key must be new and [name] not NULL. *)
Definition insert_client_with_id
  (k : Z) (name : option string) (age : option Z) (whats first : option string)
  (plan paid resch : Z) (notes : option string) (hidden : Z) (db : database)
  : result database :=
  match name with
  | None => Raise IntegrityError
  | Some nm =>
      if has_id c_id k (clients db) then Raise IntegrityError
      else Ok (mkDb (place c_id
                       (mkClient k nm age whats first (Some plan) (Some paid)
                                 (Some resch) notes (Some hidden))
                       (clients db))
                    (appointments db)
                    (Z.max (clients_seq db) k) (appointments_seq db))
  end.

(** [INSERT INTO appointments (client_id, date, kind, status)
     VALUES (?, ?, ?, ?)]: [date] must not be NULL. *)
Definition insert_appointment
  (cid : Z) (d : option string) (kind status : option string) (db : database)
  : result database :=
  match d with
  | None => Raise IntegrityError
  | Some dt =>
      let k := next_id a_id (appointments db) (appointments_seq db) in
      Ok (mkDb (clients db)
               (appointments db ++ [mkAppt k cid dt kind status])%list
               (clients_seq db) k)
  end.

End Sql.

(* ================================================================== *)
(** ** Python values read back from SQLite *)

Inductive pyval : Type :=
| PNone
| PInt (z : Z)
| PStr (s : string).

Definition of_int (v : option Z) : pyval :=
  match v with Some z => PInt z | None => PNone end.

Definition of_text (v : option string) : pyval :=
  match v with Some s => PStr s | None => PNone end.

(** [v or dflt] on an INTEGER column. *)
Definition int_or (v : option Z) (dflt : Z) : Z :=
  match v with
  | Some z => if z =? 0 then dflt else z
  | None => dflt
  end.

(** [v or ""] on a TEXT column. *)
Definition text_or (v : option string) (dflt : string) : string :=
  match v with
  | Some EmptyString => dflt
  | Some s => s
  | None => dflt
  end.

(** [bool(v)] on an INTEGER column. *)
Definition truthy (v : option Z) : bool :=
  match v with
  | Some z => negb (z =? 0)
  | None => false
  end.

(** [str(v)] on an INTEGER column. *)
Definition str_of_int_col (v : option Z) : string :=
  match v with
  | Some z => Py.str z
  | None => "None"
  end.

(* ================================================================== *)
(** ** ClientsTableModel *)

(** The nine columns [ClientsTableModel.load] selects. *)
Record table_row : Type := mkRow {
  r_id : Z;
  r_name : string;
  r_age : option Z;
  r_whatsapp : option string;
  r_first_consult : option string;
  r_plan_months : option Z;
  r_paid_returns : option Z;
  r_rescheduled : option Z;
  r_hidden : option Z
}.

Definition to_row (c : client) : table_row :=
  mkRow (c_id c) (c_name c) (c_age c) (c_whatsapp c) (c_first_consult c)
        (c_plan_months c) (c_paid_returns c) (c_rescheduled c) (c_hidden c).

(** [ClientsTableModel.load] *)
Definition load (db : database) : list table_row :=
  map to_row (Sql.clients_by_hidden_name db).

(** [ClientsTableModel.get_row] *)
Definition get_row (rows : list table_row) (row : nat) : option table_row :=
  nth_error rows row.


(* ================================================================== *)
(** ** MainWindow: form and handlers *)

(** The five entries of [cb_plan], by position, and their texts
    ([addItems(["1", "2", "3", "6", "12"])]). *)
Inductive plan_index : Type := Idx0 | Idx1 | Idx2 | Idx3 | Idx4.

Definition PLAN_INDICES : list plan_index := [Idx0; Idx1; Idx2; Idx3; Idx4].

Definition itemText (i : plan_index) : string :=
  match i with
  | Idx0 => "1" | Idx1 => "2" | Idx2 => "3" | Idx3 => "6" | Idx4 => "12"
  end.

Record form : Type := mkForm {
  ed_id : string;
  ed_name : string;
  ed_age : Z;
  ed_whats : string;
  dt_first : date;
  cb_plan : plan_index;    (* currentIndex *)
  sp_paid : Z;
  chk_resched : bool;
  chk_hidden : bool;
  ed_notes : string;
  list_next : list string;
  dt_next : date
}.

(** [cb_plan.currentText()] *)
Definition currentText (index : plan_index) : string := itemText index.

(** [cb_plan.setCurrentText(t)]: selects the first entry equal to [t], if
    any. *)
Definition setCurrentText (index : plan_index) (t : string) : plan_index :=
  match find (fun i => String.eqb (itemText i) t) PLAN_INDICES with
  | Some i => i
  | None => index
  end.

Inductive dialog : Type :=
| Warning (title text : string)
| Information (title text : string).

(** What a handler works on: the database file, [model.rows], the table's
    current row and the form widgets. *)
Record state : Type := mkState {
  db : database;
  rows : list table_row;
  current : option nat;
  frm : form
}.

(** [load_table]: the model reset drops the table's current index. *)
Definition load_table (st : state) : state :=
  mkState (db st) (load (db st)) None (frm st).

(** [clear_form]; [today] is [QDate.currentDate()]. *)
Definition clear_form (today : date) (f : form) : form :=
  mkForm "" "" (Q.setValue 0 120 0) "" (Q.setDate (dt_first f) (Some today))
         Idx0 (Q.setValue 0 12 0) false false "" [] (dt_next f).

(** [add_next_date] *)
Definition add_next_date (f : form) : form :=
  mkForm (ed_id f) (ed_name f) (ed_age f) (ed_whats f) (dt_first f) (cb_plan f)
         (sp_paid f) (chk_resched f) (chk_hidden f) (ed_notes f)
         (list_next f ++ [Q.toString_iso (dt_next f)])%list (dt_next f).

(** [fill_form_from_db] *)
Definition fill_form_from_db (client_id : Z) (d : database) (f : form) : form :=
  match Sql.client_by_id client_id d with
  | None => f
  | Some row =>
      mkForm (Py.str (c_id row))
             (c_name row)
             (Q.setValue 0 120 (int_or (c_age row) 0))
             (text_or (c_whatsapp row) "")
             (Q.setDate (dt_first f) (str_to_qdate (text_or (c_first_consult row) "")))
             (setCurrentText (cb_plan f) (Py.str (int_or (c_plan_months row) 2)))
             (Q.setValue 0 12 (int_or (c_paid_returns row) 0))
             (truthy (c_rescheduled row))
             (truthy (c_hidden row))
             (text_or (c_notes row) "")
             (Sql.scheduled_dates client_id d)
             (dt_next f)
  end.

(** [table_double_clicked]: the click makes [row] the current row. *)
Definition table_double_clicked (row : nat) (st : state) : state :=
  match get_row (rows st) row with
  | None => st
  | Some r =>
      mkState (db st) (rows st) (Some row)
              (fill_form_from_db (r_id r) (db st) (frm st))
  end.

Definition flag (b : bool) : Z := if b then 1 else 0.

(** [save_client] *)
Definition save_client (today : date) (st : state)
  : result (state * option dialog) :=
  let f := frm st in
  let name := Py.strip (ed_name f) in
  if String.eqb name "" then
    Ok (st, Some (Warning "Validação" "Informe o nome do cliente."))
  else
    plan <- Py.int (currentText (cb_plan f)) ;;
    let '(d1, client_id) :=
      Sql.insert_client name (ed_age f) (Py.strip (ed_whats f))
        (qdate_to_str (Some (dt_first f))) plan (sp_paid f)
        (flag (chk_resched f)) (Py.strip (ed_notes f)) (flag (chk_hidden f))
        (db st) in
    let d2 := Sql.insert_scheduled_all client_id (list_next f) d1 in
    Ok (load_table (mkState d2 (rows st) (current st) (clear_form today f)),
        Some (Information "Salvo" "Cliente salvo com sucesso.")).

(** [current_selected_client_id] *)
Definition current_selected_client_id (st : state) : option Z :=
  match current st with
  | None => None
  | Some i => option_map r_id (get_row (rows st) i)
  end.

(** The writes of [update_selected] for a chosen [client_id]. *)
Definition update_db (client_id : Z) (f : form) (plan : Z) (d : database)
  : database :=
  let d1 :=
    Sql.update_client client_id (Py.strip (ed_name f)) (ed_age f)
      (Py.strip (ed_whats f)) (qdate_to_str (Some (dt_first f))) plan
      (sp_paid f) (flag (chk_resched f)) (Py.strip (ed_notes f))
      (flag (chk_hidden f)) d in
  let d2 := Sql.delete_scheduled client_id d1 in
  Sql.insert_scheduled_all client_id (list_next f) d2.

(** [update_selected]; [if not client_id] holds for no selection and for
    the id 0. *)
Definition update_selected (st : state) : result (state * option dialog) :=
  match current_selected_client_id st with
  | Some client_id =>
      if client_id =? 0 then
        Ok (st, Some (Warning "Seleção" "Selecione um cliente na tabela."))
      else
        plan <- Py.int (currentText (cb_plan (frm st))) ;;
        Ok (load_table
              (mkState (update_db client_id (frm st) plan (db st))
                       (rows st) (current st) (frm st)),
            Some (Information "Atualizado" "Registro atualizado."))
  | None => Ok (st, Some (Warning "Seleção" "Selecione um cliente na tabela."))
  end.

(** [remove_selected]; [yes] is the answer to [ask_yes_no]. *)
Definition remove_selected (today : date) (yes : bool) (st : state)
  : state * option dialog :=
  match current_selected_client_id st with
  | Some client_id =>
      if client_id =? 0 then
        (st, Some (Warning "Seleção" "Selecione um cliente."))
      else if negb yes then (st, None)
      else
        let d := Sql.delete_client client_id
                   (Sql.delete_appointments_of client_id (db st)) in
        let st' := load_table (mkState d (rows st) (current st) (frm st)) in
        (mkState (db st') (rows st') (current st') (clear_form today (frm st')),
         None)
  | None => (st, Some (Warning "Seleção" "Selecione um cliente."))
  end.

(* ================================================================== *)
(** ** Weekly digest *)

Definition LF : ascii := "010"%char.
Definition CR : ascii := "013"%char.
Definition QUOTE : ascii := "034"%char.
Definition NL : string := String LF EmptyString.

Definition BANNER : string := "[ === CONSULTAS DA SEMANA === ]".
Definition SEPARATOR : string := "[ ------------------------- ]".
Definition NO_APPOINTMENTS : string := "Sem consultas nos próximos 7 dias.".

(** Body of [for d in appts]: the [try] suite appends the rendered date
    when it lies in the window; [except Exception: pass]. *)
Definition week_step (today limit : date) (appts_in_week : list string)
  (d : string) : result (list string) :=
  try_except
    (ymd <- unpack_ymd d ;;
     let '(y, m, d2) := ymd in
     date_obj <- Dt.date_ y m d2 ;;
     if date_leb today date_obj && date_leb date_obj limit
     then Ok (appts_in_week ++ [human_date d])%list
     else Ok appts_in_week)
    (fun _ => Ok appts_in_week).

Fixpoint week_loop (today limit : date) (appts_in_week : list string)
  (appts : list string) : result (list string) :=
  match appts with
  | [] => Ok appts_in_week
  | d :: rest =>
      acc <- week_step today limit appts_in_week d ;;
      week_loop today limit acc rest
  end.

(** The block of one client. *)
Definition block_lines (c : client) (appts_in_week : list string) : list string :=
  [ "";
    "Nome: " ++ c_name c;
    "Idade: " ++ (if truthy (c_age c) then str_of_int_col (c_age c) else "-");
    "WhatsApp: " ++ text_or (c_whatsapp c) "-";
    "Primeira consulta: " ++
      (match c_first_consult c with
       | Some (String a s) => human_date (String a s)
       | _ => "-"
       end);
    "Próximas (7 dias): " ++ Py.join ", " appts_in_week;
    "Plano: " ++ str_of_int_col (c_plan_months c) ++ " meses | Retornos pagos: "
      ++ str_of_int_col (c_paid_returns c);
    "Obs: " ++ text_or (c_notes c) "-";
    SEPARATOR ].

(** Body of [for ... in clients]. *)
Definition client_step (today limit : date) (d : database) (lines : list string)
  (c : client) : result (list string) :=
  appts_in_week <- week_loop today limit [] (Sql.scheduled_dates (c_id c) d) ;;
  match appts_in_week with
  | [] => Ok lines
  | _ => Ok (lines ++ block_lines c appts_in_week)%list
  end.

Fixpoint clients_loop (today limit : date) (d : database) (lines : list string)
  (cs : list client) : result (list string) :=
  match cs with
  | [] => Ok lines
  | c :: rest =>
      lines' <- client_step today limit d lines c ;;
      clients_loop today limit d lines' rest
  end.

(** [compose_week_message]; [today] is [dt.date.today()]. *)
Definition compose_week_message (today : date) (d : database) : result string :=
  limit <- Dt.add_days 7 today ;;
  lines <- clients_loop today limit d [BANNER] (Sql.visible_clients_by_name d) ;;
  Ok (Py.join NL
        (if (List.length lines =? 1)%nat then (lines ++ [NO_APPOINTMENTS])%list
         else lines)).

(** The dates one client contributes: the value of the inner loop. *)
Definition in_week (today limit : date) (d : string) : list string :=
  match unpack_ymd d with
  | Ok (y, m, d2) =>
      if Dt.valid y m d2
         && date_leb today (mkDate y m d2) && date_leb (mkDate y m d2) limit
      then [human_date d] else []
  | Raise _ => []
  end.

Definition appts_in_week (today limit : date) (appts : list string) : list string :=
  flat_map (in_week today limit) appts.


(* ================================================================== *)
(** ** PDF report *)

Inductive cell : Type :=
| Paragraph (text : string)
| Plain (text : string).

Definition OCULTO : string := " (OCULTO)".

Definition pdf_header : list cell :=
  [ Plain "Cliente"; Plain "Idade"; Plain "WhatsApp"; Plain "Primeira Consulta";
    Plain "Próximas"; Plain "Plano"; Plain "Retornos pagos"; Plain "Obs" ].

(** The "Próximas" text of a client. *)
Definition upcoming_text (d : database) (cid : Z) : string :=
  match map human_date (Sql.scheduled_dates cid d) with
  | [] => "-"
  | dates => Py.join ", " dates
  end.

(** One [data.append([...])]. *)
Definition pdf_row (d : database) (c : client) : list cell :=
  [ Paragraph (c_name c ++ (if truthy (c_hidden c) then OCULTO else ""));
    Plain (if truthy (c_age c) then str_of_int_col (c_age c) else "");
    Plain (text_or (c_whatsapp c) "");
    Plain (human_date (text_or (c_first_consult c) ""));
    Paragraph (upcoming_text d (c_id c));
    Plain (str_of_int_col (c_plan_months c));
    Plain (str_of_int_col (c_paid_returns c));
    Paragraph (text_or (c_notes c) "-") ].

(** [data] as handed to the table of the document. *)
Definition pdf_data (d : database) : list (list cell) :=
  pdf_header :: map (pdf_row d) (Sql.clients_by_hidden_name d).


(* ================================================================== *)
(** ** CSV files *)

Module Csv.

Definition DELIMITER : ascii := ";"%char.
Definition CRLF : string := String CR (String LF EmptyString).
Definition FIELD_LIMIT : Z := 131072.

(** *** [csv.writer(f, delimiter=";")] *)

(** What the writer prints for a value: [None] is empty, others [str]. *)
Definition text_of (v : pyval) : string :=
  match v with
  | PNone => ""
  | PInt z => Py.str z
  | PStr s => s
  end.

Definition special (c : ascii) : bool :=
  Ascii.eqb c DELIMITER || Ascii.eqb c QUOTE || Ascii.eqb c CR || Ascii.eqb c LF.

Fixpoint has_special (s : string) : bool :=
  match s with
  | EmptyString => false
  | String c s' => special c || has_special s'
  end.

(** Quote characters doubled. *)
Fixpoint escape (s : string) : string :=
  match s with
  | EmptyString => EmptyString
  | String c s' =>
      if Ascii.eqb c QUOTE then String QUOTE (String QUOTE (escape s'))
      else String c (escape s')
  end.

(** A field under [QUOTE_MINIMAL]. *)
Definition write_field (s : string) : string :=
  if has_special s then String QUOTE (escape s ++ String QUOTE EmptyString)
  else s.

Definition join_fields (fields : list string) : string :=
  Py.join (String DELIMITER EmptyString) (map write_field fields).

(** [w.writerow(row)]: a record that would be empty is written as a
    quoted empty field. *)
Definition writerow (row : list pyval) : string :=
  let line := join_fields (map text_of row) in
  (match row, line with
   | _ :: _, EmptyString => String QUOTE (String QUOTE EmptyString)
   | _, _ => line
   end) ++ CRLF.

(** [w.writerows(rows)] *)
Fixpoint writerows (rows : list (list pyval)) : string :=
  match rows with
  | [] => EmptyString
  | row :: rest => writerow row ++ writerows rest
  end.

(** *** Reading: [open(fn, "r", encoding="utf-8")] *)

(** Universal newlines: CR LF and CR become LF. *)
Fixpoint universal_newlines (s : string) : string :=
  match s with
  | EmptyString => EmptyString
  | String c s' =>
      if Ascii.eqb c CR then
        String LF
          (match s' with
           | String c2 s'' =>
               if Ascii.eqb c2 LF then universal_newlines s''
               else universal_newlines s'
           | EmptyString => EmptyString
           end)
      else String c (universal_newlines s')
  end.

(** Iterating the file: lines with their line feed. *)
Fixpoint file_lines (s : string) : list string :=
  match s with
  | EmptyString => []
  | String c s' =>
      if Ascii.eqb c LF then String LF EmptyString :: file_lines s'
      else match file_lines s' with
           | l :: ls => String c l :: ls
           | [] => [String c EmptyString]
           end
  end.

(** *** [csv.reader(f, delimiter=";")] (no escape character, not strict) *)

Inductive pstate : Type :=
| START_RECORD | START_FIELD | IN_FIELD | IN_QUOTED_FIELD
| QUOTE_IN_QUOTED_FIELD | EAT_CRNL.

Record parser : Type := mkParser {
  state : pstate;
  fields : list string;   (* fields of the record so far *)
  field : string          (* characters of the field so far *)
}.

Definition parse_reset : parser := mkParser START_RECORD [] "".

Definition add_char (c : ascii) (st : pstate) (p : parser) : result parser :=
  if FIELD_LIMIT <=? Z.of_nat (String.length (field p)) then Raise CsvError
  else Ok (mkParser st (fields p) (field p ++ String c EmptyString)).

Definition save_field (st : pstate) (p : parser) : parser :=
  mkParser st (fields p ++ [field p])%list "".

Definition is_newline (c : ascii) : bool := Ascii.eqb c LF || Ascii.eqb c CR.

(** One step of the reader; [None] is the end-of-line mark. *)
Definition process_char (p : parser) (c : option ascii) : result parser :=
  match state p, c with
  | START_RECORD, None => Ok p
  | EAT_CRNL, None => Ok (mkParser START_RECORD (fields p) (field p))
  | IN_QUOTED_FIELD, None => Ok p
  | _, None => Ok (save_field START_RECORD p)
  | START_RECORD, Some c =>
      if is_newline c then Ok (mkParser EAT_CRNL (fields p) (field p))
      else if Ascii.eqb c QUOTE then Ok (mkParser IN_QUOTED_FIELD (fields p) (field p))
      else if Ascii.eqb c DELIMITER then Ok (save_field START_FIELD p)
      else add_char c IN_FIELD p
  | START_FIELD, Some c =>
      if is_newline c then Ok (save_field EAT_CRNL p)
      else if Ascii.eqb c QUOTE then Ok (mkParser IN_QUOTED_FIELD (fields p) (field p))
      else if Ascii.eqb c DELIMITER then Ok (save_field START_FIELD p)
      else add_char c IN_FIELD p
  | IN_FIELD, Some c =>
      if is_newline c then Ok (save_field EAT_CRNL p)
      else if Ascii.eqb c DELIMITER then Ok (save_field START_FIELD p)
      else add_char c IN_FIELD p
  | IN_QUOTED_FIELD, Some c =>
      if Ascii.eqb c QUOTE then
        Ok (mkParser QUOTE_IN_QUOTED_FIELD (fields p) (field p))
      else add_char c IN_QUOTED_FIELD p
  | QUOTE_IN_QUOTED_FIELD, Some c =>
      if Ascii.eqb c QUOTE then add_char c IN_QUOTED_FIELD p
      else if Ascii.eqb c DELIMITER then Ok (save_field START_FIELD p)
      else if is_newline c then Ok (save_field EAT_CRNL p)
      else add_char c IN_FIELD p
  | EAT_CRNL, Some c =>
      if is_newline c then Ok p else Raise CsvError
  end.

(** The characters of one line. *)
Fixpoint feed (p : parser) (line : string) : result parser :=
  match line with
  | EmptyString => Ok p
  | String c rest => p' <- process_char p (Some c) ;; feed p' rest
  end.

Definition at_start (p : parser) : bool :=
  match state p with START_RECORD => true | _ => false end.

Definition in_quoted (p : parser) : bool :=
  match state p with IN_QUOTED_FIELD => true | _ => false end.

(** All the records of the reader: a record ends at the first line after
    which the parser is back at [START_RECORD]; input that ends inside a
    record closes it. *)
Fixpoint records (p : parser) (lines : list string) : result (list (list string)) :=
  match lines with
  | [] =>
      if negb (String.eqb (field p) "") || in_quoted p
      then Ok [fields (save_field START_RECORD p)]
      else Ok []
  | l :: ls =>
      p1 <- feed p l ;;
      p2 <- process_char p1 None ;;
      if at_start p2 then
        rest <- records parse_reset ls ;; Ok (fields p2 :: rest)
      else records p2 ls
  end.

Definition reader (text : string) : result (list (list string)) :=
  records parse_reset (file_lines (universal_newlines text)).

(** *** [csv.DictReader] *)

(** A row as a dict: a missing cell is [None]; with a repeated field
    name the last one wins. *)
Definition dict : Type := list (string * option string).

Fixpoint zip_row (fieldnames row : list string) : dict :=
  match fieldnames with
  | [] => []
  | k :: ks =>
      match row with
      | v :: vs => (k, Some v) :: zip_row ks vs
      | [] => (k, None) :: zip_row ks []
      end
  end.

Fixpoint lookup (k : string) (d : dict) : option (option string) :=
  match d with
  | [] => None
  | (k', v) :: d' =>
      match lookup k d' with
      | Some r => Some r
      | None => if String.eqb k' k then Some v else None
      end
  end.

(** [row[k]] *)
Definition getitem (d : dict) (k : string) : result (option string) :=
  match lookup k d with
  | Some v => Ok v
  | None => Raise KeyError
  end.

Definition is_empty_row (row : list string) : bool :=
  match row with [] => true | _ => false end.

(** The rows a [DictReader] yields: the first record names the fields,
    empty records are skipped. *)
Definition dict_rows (recs : list (list string)) : list dict :=
  match recs with
  | [] => []
  | fieldnames :: body =>
      map (zip_row fieldnames) (filter (fun r => negb (is_empty_row r)) body)
  end.

Definition dict_reader (text : string) : result (list dict) :=
  recs <- reader text ;; Ok (dict_rows recs).

End Csv.

(** The files on disk, by name; the most recent write comes first. *)
Definition files : Type := list (string * string).

Fixpoint read_file (fn : string) (fs : files) : option string :=
  match fs with
  | [] => None
  | (n, text) :: fs' => if String.eqb n fn then Some text else read_file fn fs'
  end.

(** [open(fn, "w")] then writing [text]. *)
Definition write_file (fn text : string) (fs : files) : files := (fn, text) :: fs.

(** [os.path.exists(fn)] *)
Definition exists_file (fn : string) (fs : files) : bool :=
  match read_file fn fs with Some _ => true | None => false end.

(** [fn_clients.replace(".csv", "_consultas.csv")] *)
Definition companion (fn_clients : string) : string :=
  Py.replace ".csv" "_consultas.csv" fn_clients.

Definition CLIENT_COLUMNS : list string :=
  ["id"; "name"; "age"; "whatsapp"; "first_consult"; "plan_months";
   "paid_returns"; "rescheduled"; "notes"; "hidden"].

Definition APPOINTMENT_COLUMNS : list string :=
  ["client_id"; "date"; "kind"; "status"].

(** A row of [SELECT id,name,...,hidden FROM clients]. *)
Definition client_values (c : client) : list pyval :=
  [ PInt (c_id c); PStr (c_name c); of_int (c_age c); of_text (c_whatsapp c);
    of_text (c_first_consult c); of_int (c_plan_months c);
    of_int (c_paid_returns c); of_int (c_rescheduled c); of_text (c_notes c);
    of_int (c_hidden c) ].

(** A row of [SELECT client_id,date,kind,status FROM appointments]. *)
Definition appointment_values (a : appointment) : list pyval :=
  [ PInt (a_client_id a); PStr (a_date a); of_text (a_kind a);
    of_text (a_status a) ].

Definition clients_csv (d : database) : string :=
  Csv.writerow (map PStr CLIENT_COLUMNS)
  ++ Csv.writerows (map client_values (clients d)).

Definition appointments_csv (d : database) : string :=
  Csv.writerow (map PStr APPOINTMENT_COLUMNS)
  ++ Csv.writerows (map appointment_values (appointments d)).

(** [export_csv]; [fn_clients] is the chosen name, empty when the dialog
    is cancelled. *)
Definition export_csv (fn_clients : string) (fs : files) (d : database)
  : files * option dialog :=
  if String.eqb fn_clients "" then (fs, None)
  else
    let fn_appts := companion fn_clients in
    let fs1 := write_file fn_clients (clients_csv d) fs in
    let fs2 := write_file fn_appts (appointments_csv d) fs1 in
    (fs2, Some (Information "CSV"
                  ("Exportado:" ++ NL ++ fn_clients ++ NL ++ fn_appts))).

(** [int(v)] on a cell of a dict row. *)
Definition int_of_cell (v : option string) : result Z :=
  match v with
  | Some s => Py.int s
  | None => Raise TypeError
  end.

(** Truth value of a cell: a non-empty string. *)
Definition cell_true (v : option string) : bool :=
  match v with
  | Some (String _ _) => true
  | _ => false
  end.

(** [int(v or dflt)] *)
Definition int_of_cell_or (v : option string) (dflt : Z) : result Z :=
  if cell_true v then int_of_cell v else Ok dflt.

(** Body of the first [for row in r]. *)
Definition import_client (row : Csv.dict) (d : database) : result database :=
  v_id <- Csv.getitem row "id" ;;
  k <- int_of_cell v_id ;;
  name <- Csv.getitem row "name" ;;
  v_age <- Csv.getitem row "age" ;;
  age <- (if cell_true v_age then z <- int_of_cell v_age ;; Ok (Some z)
          else Ok None) ;;
  whats <- Csv.getitem row "whatsapp" ;;
  v_first <- Csv.getitem row "first_consult" ;;
  v_plan <- Csv.getitem row "plan_months" ;;
  plan <- int_of_cell_or v_plan 2 ;;
  v_paid <- Csv.getitem row "paid_returns" ;;
  paid <- int_of_cell_or v_paid 0 ;;
  v_resch <- Csv.getitem row "rescheduled" ;;
  resch <- int_of_cell_or v_resch 0 ;;
  notes <- Csv.getitem row "notes" ;;
  v_hidden <- Csv.getitem row "hidden" ;;
  hidden <- int_of_cell_or v_hidden 0 ;;
  Sql.insert_client_with_id k name age whats
    (if cell_true v_first then v_first else None)
    plan paid resch notes hidden d.

(** Body of the second [for row in r]. *)
Definition import_appointment (row : Csv.dict) (d : database) : result database :=
  v_cid <- Csv.getitem row "client_id" ;;
  cid <- int_of_cell v_cid ;;
  dt <- Csv.getitem row "date" ;;
  kind <- Csv.getitem row "kind" ;;
  status <- Csv.getitem row "status" ;;
  Sql.insert_appointment cid dt kind status d.

Fixpoint for_rows (body : Csv.dict -> database -> result database)
  (rs : list Csv.dict) (d : database) : result database :=
  match rs with
  | [] => Ok d
  | r :: rest => d' <- body r d ;; for_rows body rest d'
  end.

Definition open_read (fn : string) (fs : files) : result string :=
  match read_file fn fs with
  | Some text => Ok text
  | None => Raise FileNotFoundError
  end.

(** The transaction of [import_csv]: both deletes, then both files.  An
    exception leaves the [with] block and rolls everything back, so the
    caller keeps the old database. *)
Definition import_db (fn_clients fn_appts : string) (fs : files) (d : database)
  : result database :=
  let d0 := Sql.delete_all d in
  text_c <- open_read fn_clients fs ;;
  rows_c <- Csv.dict_reader text_c ;;
  d1 <- for_rows import_client rows_c d0 ;;
  text_a <- open_read fn_appts fs ;;
  rows_a <- Csv.dict_reader text_a ;;
  for_rows import_appointment rows_a d1.

(** [import_csv]; [fn_clients] is the chosen name (empty when cancelled),
    [yes] the answer to the confirmation. *)
Definition import_csv (fn_clients : string) (yes : bool) (fs : files) (st : state)
  : result (state * option dialog) :=
  if String.eqb fn_clients "" then Ok (st, None)
  else
    let fn_appts := companion fn_clients in
    if negb (exists_file fn_appts fs) then
      Ok (st, Some (Warning "CSV"
             "Arquivo de consultas não encontrado (deveria ser *_consultas.csv)."))
    else if negb yes then Ok (st, None)
    else
      d' <- import_db fn_clients fn_appts fs (db st) ;;
      Ok (load_table (mkState d' (rows st) (current st) (frm st)),
          Some (Information "CSV" "Importação concluída.")).

(* ================================================================== *)
(** ** Vocabulary of the statements *)



Fixpoint all_digits (s : string) : bool :=
  match s with
  | EmptyString => true
  | String c s' => Py.is_digit c && all_digits s'
  end.

(** Value of a digit string read from the left, starting from [acc]. *)
Fixpoint value (acc : Z) (s : string) : Z :=
  match s with
  | EmptyString => acc
  | String c s' => value (10 * acc + Py.digit_val c) s'
  end.

Fixpoint no_char (x : ascii) (s : string) : bool :=
  match s with
  | EmptyString => true
  | String c s' => negb (Ascii.eqb c x) && no_char x s'
  end.



(** A row as the form list reinserts it. *)
Definition reinserted (cid : Z) (a : appointment) : Prop :=
  a_client_id a = cid /\ a_kind a = Some RETORNO /\ a_status a = Some AGENDADO.

(** Concrete states the examples run on. *)
Module Ex.

Definition today : date := mkDate 2024 6 1.

Definition blank : form :=
  mkForm "" "" 0 "" today Idx0 0 false false "" [] (mkDate 2024 6 8).

(** A form with a name, plan "3" and two dates. *)
Definition ana : form :=
  mkForm "" " Ana " 30 "+5586999990000" (mkDate 2024 5 2) Idx2 1 false false
         "sem lactose" ["2024-06-08"; "2024-06-01"] (mkDate 2024 6 8).


Definition start : state := mkState empty_db [] None blank.




(** Two clients; client 1 has a scheduled, a done and a cancelled
    appointment, client 2 a scheduled one.  Row 0 of the table (client 1)
    is selected. *)
Definition two_db : database :=
  mkDb [ mkClient 1 "Bea" (Some 28) (Some "") (Some "2024-02-01") (Some 3)
                  (Some 1) (Some 0) (Some "") (Some 0);
         mkClient 2 "Caio" (Some 35) (Some "") (Some "2024-03-01") (Some 6)
                  (Some 0) (Some 0) (Some "") (Some 1) ]
       [ mkAppt 1 1 "2024-06-03" (Some RETORNO) (Some AGENDADO);
         mkAppt 2 1 "2024-04-03" (Some RETORNO) (Some "feito");
         mkAppt 3 2 "2024-06-05" (Some RETORNO) (Some AGENDADO);
         mkAppt 4 1 "2024-05-03" (Some RETORNO) (Some "cancelado") ]
       2 4.

Definition two_state : state :=
  mkState two_db (load two_db) (Some 0%nat)
          (mkForm "1" "Bea" 28 "" (mkDate 2024 2 1) Idx2 1 false false ""
                  ["2024-07-01"; "2024-07-15"] today).

(** Bea (visible) with appointments around the week of [today], one of
    them not a date; Caio (hidden) with one inside the week. *)
Definition bea : client :=
  mkClient 1 "Bea" (Some 28) (Some "") (Some "2024-02-01") (Some 3) (Some 1)
           (Some 0) (Some "") (Some 0).

Definition caio : client :=
  mkClient 2 "Caio" (Some 35) (Some "") (Some "2024-03-01") (Some 6) (Some 0)
           (Some 0) (Some "") (Some 1).

Definition week_db : database :=
  mkDb [ bea; caio ]
       [ mkAppt 1 1 "2024-06-09" (Some RETORNO) (Some AGENDADO);
         mkAppt 2 1 "2024-06-08" (Some RETORNO) (Some AGENDADO);
         mkAppt 3 1 "amanhã" (Some RETORNO) (Some AGENDADO);
         mkAppt 4 1 "2024-06-01" (Some RETORNO) (Some AGENDADO);
         mkAppt 5 1 "2024-05-31" (Some RETORNO) (Some AGENDADO);
         mkAppt 6 2 "2024-06-03" (Some RETORNO) (Some AGENDADO) ]
       2 6.

(** The table of [two_db] on screen, nothing selected, an empty form. *)
Definition two_idle : state := mkState two_db (load two_db) None blank.

(** An export of [week_db] under a name with a doubled suffix. *)
Definition double_fn : string := "clientes.csv.csv".

Definition double_fs : files := fst (export_csv double_fn [] week_db).

(** The state after saving [ana] into an empty database. *)
Definition saved : state :=
  match save_client today (mkState empty_db [] None ana) with
  | Ok (st, _) => st
  | Raise _ => start
  end.

(** A client row with every nullable column NULL. *)
Definition lia_db : database :=
  mkDb [mkClient 7 "Lia" None None None None None None None None] [] 7 0.

End Ex.





(** [pat] occurs somewhere in [s]. *)
Fixpoint occurs (pat s : string) : bool :=
  match s with
  | EmptyString => prefix pat EmptyString
  | String _ s' => prefix pat s || occurs pat s'
  end.

(** The companion name in the words of the specification: the name with
    its ".csv" suffix replaced by "_consultas.csv". *)
Definition suffix_replaced (fn r : string) : Prop :=
  exists base, fn = base ++ ".csv" /\ r = base ++ "_consultas.csv".

Definition MISSING_COMPANION : dialog :=
  Warning "CSV"
    "Arquivo de consultas não encontrado (deveria ser *_consultas.csv).".

(** Text that survives a CSV file: no carriage return (the file is read
    back with universal newlines) and within the reader's field limit. *)
Definition text_ok (s : string) : Prop :=
  no_char CR s = true /\ Z.of_nat (String.length s) <= Csv.FIELD_LIMIT.

(** An integer SQLite can store. *)
Definition int64 (z : Z) : Prop := - 2 ^ 63 <= z < 2 ^ 63.

Definition opt_ok {A} (P : A -> Prop) (v : option A) : Prop :=
  match v with Some x => P x | None => True end.

Definition some_ok {A} (P : A -> Prop) (v : option A) : Prop :=
  match v with Some x => P x | None => False end.

(** A client row as the application writes it: only [age] and
    [first_consult] may be NULL, and [first_consult] is never empty. *)
Definition client_ok (c : client) : Prop :=
  int64 (c_id c) /\ text_ok (c_name c) /\ opt_ok int64 (c_age c)
  /\ some_ok text_ok (c_whatsapp c)
  /\ opt_ok (fun s => s <> "" /\ text_ok s) (c_first_consult c)
  /\ some_ok int64 (c_plan_months c) /\ some_ok int64 (c_paid_returns c)
  /\ some_ok int64 (c_rescheduled c) /\ some_ok text_ok (c_notes c)
  /\ some_ok int64 (c_hidden c).

(** An appointment row as the application writes it. *)
Definition appointment_ok (a : appointment) : Prop :=
  int64 (a_client_id a) /\ text_ok (a_date a) /\ some_ok text_ok (a_kind a)
  /\ some_ok text_ok (a_status a).

(** A database whose [clients] are in rowid order and whose rows are as
    the application writes them. *)
Definition exportable (d : database) : Prop :=
  StronglySorted (fun a b => c_id a < c_id b) (clients d)
  /\ Forall client_ok (clients d)
  /\ Forall appointment_ok (appointments d).

(** What the appointment file keeps of a row: everything but its id. *)
Definition appointment_fields (a : appointment)
  : Z * string * option string * option string :=
  (a_client_id a, a_date a, a_kind a, a_status a).

(** The dict rows of the two exported files. *)
Definition client_dict (c : client) : Csv.dict :=
  Csv.zip_row CLIENT_COLUMNS (map Csv.text_of (client_values c)).

Definition appointment_dict (a : appointment) : Csv.dict :=
  Csv.zip_row APPOINTMENT_COLUMNS (map Csv.text_of (appointment_values a)).

(** A record of at least two cells, each of them [text_ok]. *)
Definition record_ok (r : list string) : Prop :=
  (2 <= List.length r)%nat /\ Forall text_ok r.

(** The parser has read a whole field and waits for what ends it. *)
Definition after_field (p : Csv.parser) : Prop :=
  match Csv.state p with
  | Csv.START_FIELD | Csv.IN_FIELD | Csv.QUOTE_IN_QUOTED_FIELD => True
  | _ => False
  end.

(* ================================================================== *)
(** ** ClientsTableModel: counts and headers *)

Definition HEADERS : list string :=
  ["ID"; "Cliente"; "Idade"; "WhatsApp"; "1ª Consulta"; "Plano (meses)";
   "Retornos pagos"; "Reagendado"; "Oculto"].

(** [rowCount] *)
Definition rowCount (rs : list table_row) : nat := List.length rs.

(** [columnCount] *)
Definition columnCount : nat := List.length HEADERS.

(* ================================================================== *)
(** ** WhatsApp *)

(** The module constant the owner is told to configure. *)
Definition OWNER_WHATS : string := "+5586999999999".

(** [kit.sendwhatmsg_instantly(phone, msg, wait_time=20, tab_close=True)]:
    [None] when the call returns, [Some e] when it raises an exception
    whose text is [e]. *)
Definition channel : Type := string -> string -> option string.

(** What a send did: the (phone, message) handed over to a call that
    returned, if any, and the dialog shown, if any. *)
Definition send_outcome : Type := option (string * string) * option dialog.

(** [send_week_whatsapp]; [kit] is [None] when [import pywhatkit] failed,
    [owner] is [OWNER_WHATS]. *)
Definition send_week_whatsapp (kit : option channel) (owner : string)
  (today : date) (d : database) : result send_outcome :=
  match kit with
  | None =>
      Ok (None, Some (Warning "WhatsApp" "Biblioteca pywhatkit não disponível."))
  | Some send =>
      if negb (prefix "+" owner) then
        Ok (None,
            Some (Warning "WhatsApp"
                    "Configure seu número em OWNER_WHATS no código (formato +55DDDNUMERO)."))
      else
        msg <- compose_week_message today d ;;
        match send owner msg with
        | None =>
            Ok (Some (owner, msg),
                Some (Information "WhatsApp" "Mensagem enviada para seu WhatsApp."))
        | Some e =>
            Ok (None, Some (Warning "WhatsApp" ("Falha ao enviar: " ++ e)))
        end
  end.

(** [send_week_whatsapp_auto] *)
Definition send_week_whatsapp_auto (kit : option channel) (owner : string)
  (today : date) (d : database) : result send_outcome :=
  match kit with
  | None => Ok (None, None)
  | Some send =>
      if negb (prefix "+" owner) then Ok (None, None)
      else
        msg <- compose_week_message today d ;;
        match send owner msg with
        | None => Ok (Some (owner, msg), None)
        | Some _ => Ok (None, None)
        end
  end.

(* ================================================================== *)
(** ** Invariants *)

(** Rowids of an AUTOINCREMENT table: distinct, in order, and never above
    the counter. *)
Definition ids_ok {A} (id : A -> Z) (l : list A) (seq : Z) : Prop :=
  StronglySorted (fun a b => id a < id b) l
  /\ Forall (fun r => id r <= seq) l
  /\ 0 <= seq.

Definition db_ok (d : database) : Prop :=
  ids_ok c_id (clients d) (clients_seq d)
  /\ ids_ok a_id (appointments d) (appointments_seq d).

(** The table on screen shows the database. *)
Definition state_ok (st : state) : Prop :=
  db_ok (db st) /\ rows st = load (db st).

(** Values the widgets of the form can hold. *)
Definition form_ok (f : form) : Prop :=
  0 <= ed_age f <= 120
  /\ 0 <= sp_paid f <= 12
  /\ Q.valid (year (dt_first f)) (month (dt_first f)) (day (dt_first f)) = true
  /\ Q.in_edit_range (dt_first f) = true.


(** No number occurs twice in the list. *)
Fixpoint ids_distinct (l : list Z) : bool :=
  match l with
  | [] => true
  | k :: rest => negb (existsb (Z.eqb k) rest) && ids_distinct rest
  end.

(* ================================================================== *)
(** * Proofs *)

(** ** Text *)

Lemma append_nil_r (s : string) : s ++ "" = s.
Proof. induction s; simpl; congruence. Qed.

Lemma append_assoc (a b c : string) : (a ++ b) ++ c = a ++ (b ++ c).
Proof. induction a; simpl; congruence. Qed.

Lemma length_append (a b : string) :
  String.length (a ++ b) = (String.length a + String.length b)%nat.
Proof. induction a; simpl; congruence. Qed.


(** ** Digits *)


Lemma digit_char_is_digit (d : Z) :
  0 <= d <= 9 -> Py.is_digit (Py.digit_char d) = true
                 /\ Py.digit_val (Py.digit_char d) = d.
Proof.
  intros H.
  assert (d = 0 \/ d = 1 \/ d = 2 \/ d = 3 \/ d = 4 \/ d = 5 \/ d = 6
          \/ d = 7 \/ d = 8 \/ d = 9) as C by lia.
  repeat (destruct C as [-> | C]; [vm_compute; split; reflexivity|]).
  subst. vm_compute. split; reflexivity.
Qed.


Lemma digit_not_space (c : ascii) :
  Py.is_digit c = true -> Py.isspace c = false.
Proof.
  destruct c as [[] [] [] [] [] [] [] []]; intros H; try discriminate H;
    reflexivity.
Qed.

Lemma digit_not_sign (c : ascii) :
  Py.is_digit c = true ->
  c <> "-"%char /\ c <> "+"%char /\ c <> "_"%char /\ c <> "/"%char.
Proof.
  destruct c as [[] [] [] [] [] [] [] []]; intros H; try discriminate H;
    repeat split; discriminate.
Qed.

Lemma all_digits_app (a b : string) :
  all_digits (a ++ b) = all_digits a && all_digits b.
Proof.
  induction a; simpl; [reflexivity|]. rewrite IHa. apply andb_assoc.
Qed.

Lemma value_app (acc : Z) (a b : string) :
  value acc (a ++ b) = value (value acc a) b.
Proof. revert acc. induction a; intros; simpl; auto. Qed.


(** [int_digits] on a plain digit string is its value. *)
Lemma int_digits_value (s : string) :
  all_digits s = true ->
  forall prev acc,
    Py.int_digits prev acc s
    = match s with
      | EmptyString => if prev then Some acc else None
      | _ => Some (value acc s)
      end.
Proof.
  induction s as [|c s IH]; cbn [value all_digits Py.int_digits];
    intros H prev acc; [reflexivity|].
  apply andb_true_iff in H as [Hc Hs]. rewrite Hc.
  rewrite (IH Hs). destruct s; reflexivity.
Qed.

Lemma rstrip_no_space (s : string) :
  (forall c, no_char c s = false -> Py.isspace c = false) ->
  Py.rstrip s = s.
Proof.
  induction s as [|c s IH]; simpl; intros H; [reflexivity|].
  rewrite IH.
  - destruct s; [|reflexivity].
    rewrite (H c); [reflexivity|]. simpl. now rewrite Ascii.eqb_refl.
  - intros x Hx. apply H. simpl. now rewrite Hx, andb_false_r.
Qed.

Lemma all_digits_no_space (s : string) :
  all_digits s = true -> forall c, no_char c s = false -> Py.isspace c = false.
Proof.
  induction s as [|a s IH]; simpl; intros H c Hc; [discriminate|].
  apply andb_true_iff in H as [Ha Hs].
  destruct (Ascii.eqb a c) eqn:E.
  - apply Ascii.eqb_eq in E. subst. now apply digit_not_space.
  - simpl in Hc. now apply IH.
Qed.

Lemma strip_digits (s : string) : all_digits s = true -> Py.strip s = s.
Proof.
  intros H. unfold Py.strip.
  assert (Py.lstrip s = s) as ->.
  { destruct s as [|c s]; [reflexivity|]. simpl in *.
    apply andb_true_iff in H as [Hc _]. now rewrite (digit_not_space c Hc). }
  apply rstrip_no_space, all_digits_no_space, H.
Qed.

(** [int] reads a non-empty digit string as its value. *)
Lemma int_digits_string (s : string) :
  all_digits s = true -> s <> "" -> Py.int s = Ok (value 0 s).
Proof.
  intros H Hne. unfold Py.int, Py.int_opt. rewrite (strip_digits s H).
  destruct s as [|c s]; [congruence|].
  pose proof H as H'. simpl in H'. apply andb_true_iff in H' as [Hc _].
  destruct (digit_not_sign c Hc) as (Hm & Hp & _).
  assert (Py.int_digits false 0 (String c s) = Some (value 0 (String c s))) as E
    by (rewrite (int_digits_value _ H); reflexivity).
  destruct c as [[] [] [] [] [] [] [] []]; try (rewrite E; reflexivity);
    congruence.
Qed.

(** ** Printing integers *)

Lemma value_snoc (acc : Z) (s : string) (c : ascii) :
  value acc (s ++ String c "") = 10 * value acc s + Py.digit_val c.
Proof. rewrite value_app. reflexivity. Qed.


Lemma digits_fuel_step (f : nat) (n : Z) (acc : string) :
  Py.digits_fuel (S f) n acc
  = if n <? 10 then String (Py.digit_char (n mod 10)) acc
    else Py.digits_fuel f (n / 10) (String (Py.digit_char (n mod 10)) acc).
Proof. reflexivity. Qed.

(** Printing then reading gives the number back. *)
Lemma digits_fuel_value (fuel : nat) :
  forall n acc, 0 <= n < 2 ^ Z.of_nat fuel -> fuel <> O ->
    exists D, Py.digits_fuel fuel n acc = D ++ acc
              /\ all_digits D = true /\ D <> "" /\ value 0 D = n.
Proof.
  induction fuel as [|f IH]; intros n acc Hn Hf; [congruence|].
  rewrite digits_fuel_step.
  assert (0 <= n mod 10 <= 9) as Hm
    by (pose proof (Z.mod_pos_bound n 10); lia).
  destruct (digit_char_is_digit _ Hm) as [Hd Hv].
  destruct (n <? 10) eqn:E.
  - apply Z.ltb_lt in E. exists (String (Py.digit_char (n mod 10)) "").
    cbn [append all_digits value]. rewrite Hd, Hv.
    repeat split; try discriminate. rewrite Z.mod_small; lia.
  - apply Z.ltb_ge in E.
    assert (0 <= n / 10 < 2 ^ Z.of_nat f) as Hq.
    { rewrite Nat2Z.inj_succ, Z.pow_succ_r in Hn by lia.
      split; [apply Z.div_pos; lia|].
      apply Z.div_lt_upper_bound; lia. }
    assert (f <> O) as Hf'.
    { intros ->. assert (1 <= n / 10) by (apply Z.div_le_lower_bound; lia).
      simpl in Hq. lia. }
    destruct (IH (n / 10) (String (Py.digit_char (n mod 10)) acc) Hq Hf')
      as (D & HD & Hall & Hne & Hval).
    exists (D ++ String (Py.digit_char (n mod 10)) "").
    rewrite HD, append_assoc, all_digits_app, value_snoc, Hall, Hval, Hv.
    cbn [append all_digits]. rewrite Hd.
    repeat split; auto.
    + destruct D; [congruence|discriminate].
    + pose proof (Z.div_mod n 10). lia.
Qed.

Lemma log2_fuel (n : Z) : 0 <= n -> n < 2 ^ Z.of_nat (S (Z.to_nat (Z.log2 n))).
Proof.
  intros H. rewrite Nat2Z.inj_succ, Z2Nat.id by apply Z.log2_nonneg.
  destruct (Z.eq_dec n 0) as [->|Hn]; [reflexivity|].
  apply Z.log2_spec. lia.
Qed.

Lemma str_nat_value (n : Z) :
  0 <= n ->
  all_digits (Py.str_nat n) = true /\ Py.str_nat n <> ""
  /\ value 0 (Py.str_nat n) = n.
Proof.
  intros H. unfold Py.str_nat.
  destruct (digits_fuel_value (S (Z.to_nat (Z.log2 n))) n "")
    as (D & HD & Hall & Hne & Hval); [split; [lia|now apply log2_fuel]|lia|].
  rewrite HD, append_nil_r. auto.
Qed.




(** [int(str(n)) = n] *)
Lemma int_str (n : Z) : Py.int (Py.str n) = Ok n.
Proof.
  unfold Py.str. destruct (n <? 0) eqn:E.
  - apply Z.ltb_lt in E.
    destruct (str_nat_value (- n)) as (Hall & Hne & Hval); [lia|].
    unfold Py.int, Py.int_opt.
    assert (Py.strip (String "-" (Py.str_nat (- n)))
            = String "-" (Py.str_nat (- n))) as ->.
    { unfold Py.strip. cbn [Py.lstrip].
      change (Py.isspace "-") with false. cbv iota.
      cbn [Py.rstrip]. rewrite rstrip_no_space
        by (apply all_digits_no_space, Hall).
      destruct (Py.str_nat (- n)); [congruence|reflexivity]. }
    rewrite (int_digits_value _ Hall).
    destruct (Py.str_nat (- n)); [congruence|].
    cbn [option_map]. rewrite Hval. f_equal. lia.
  - apply Z.ltb_ge in E.
    destruct (str_nat_value n E) as (Hall & Hne & Hval).
    rewrite (int_digits_string _ Hall Hne), Hval. reflexivity.
Qed.

Lemma zeros_digits (k : nat) (s : string) :
  all_digits (Py.zeros k ++ s) = all_digits s
  /\ value 0 (Py.zeros k ++ s) = value 0 s.
Proof. induction k; simpl; auto. Qed.

Lemma zfill_value (w : nat) (s : string) :
  all_digits s = true -> s <> "" ->
  all_digits (Py.zfill w s) = true /\ Py.zfill w s <> ""
  /\ value 0 (Py.zfill w s) = value 0 s.
Proof.
  intros H Hne. unfold Py.zfill.
  destruct (zeros_digits (w - String.length s) s) as [-> ->].
  repeat split; auto.
  destruct (Py.zeros (w - String.length s)); [exact Hne|discriminate].
Qed.

(** ** Splitting at a separator *)

Lemma split_no_sep (sep : ascii) (p : string) :
  no_char sep p = true -> Py.split sep p = [p].
Proof.
  induction p as [|c p IH]; cbn [no_char Py.split]; intros H; [reflexivity|].
  apply andb_true_iff in H as [Hc Hp]. apply negb_true_iff in Hc.
  rewrite Hc, (IH Hp). reflexivity.
Qed.

Lemma split_app (sep : ascii) (p rest : string) :
  no_char sep p = true ->
  Py.split sep (p ++ String sep rest) = p :: Py.split sep rest.
Proof.
  induction p as [|c p IH]; cbn [no_char Py.split append]; intros H.
  - now rewrite Ascii.eqb_refl.
  - apply andb_true_iff in H as [Hc Hp]. apply negb_true_iff in Hc.
    rewrite Hc, (IH Hp). reflexivity.
Qed.

Lemma digits_no_dash (s : string) :
  all_digits s = true -> no_char "-" s = true.
Proof.
  induction s as [|c s IH]; cbn [all_digits no_char]; intros H; [reflexivity|].
  apply andb_true_iff in H as [Hc Hs]. rewrite (IH Hs), andb_true_r.
  apply negb_true_iff, Ascii.eqb_neq. apply (digit_not_sign c Hc).
Qed.

(** Three digit strings joined by dashes unpack to their values. *)
Lemma unpack_ymd_digits (a b c : string) :
  all_digits a = true -> all_digits b = true -> all_digits c = true ->
  a <> "" -> b <> "" -> c <> "" ->
  unpack_ymd (a ++ String "-" (b ++ String "-" c))
  = Ok (value 0 a, value 0 b, value 0 c).
Proof.
  intros Ha Hb Hc Na Nb Nc. unfold unpack_ymd.
  rewrite (split_app "-" a) by now apply digits_no_dash.
  rewrite (split_app "-" b) by now apply digits_no_dash.
  rewrite (split_no_sep "-" c) by now apply digits_no_dash.
  rewrite !int_digits_string by assumption. reflexivity.
Qed.



(** ** C10: [human_date] *)




(** ** C7: saving without a name *)



(** ** C6: the plan defaults *)





(** ** C1: Update replaces the scheduled appointments *)

Lemma insert_scheduled_all_spec (cid : Z) (ds : list string) :
  forall d,
    clients (Sql.insert_scheduled_all cid ds d) = clients d
    /\ clients_seq (Sql.insert_scheduled_all cid ds d) = clients_seq d
    /\ exists new_rows,
         appointments (Sql.insert_scheduled_all cid ds d)
         = (appointments d ++ new_rows)%list
         /\ map a_date new_rows = ds
         /\ Forall (reinserted cid) new_rows.
Proof.
  unfold Sql.insert_scheduled_all.
  induction ds as [|x ds IH]; intros d; cbn [fold_left].
  - repeat split. exists []. rewrite app_nil_r. repeat split. constructor.
  - destruct (IH (Sql.insert_scheduled cid x d)) as (Hc & Hs & new_rows & Ha & Hd & Hn).
    rewrite Hc, Hs. repeat split.
    eexists (_ :: new_rows). rewrite Ha. cbn [Sql.insert_scheduled appointments].
    rewrite <- app_assoc. cbn [app]. split; [reflexivity|].
    cbn [map a_date]. rewrite Hd. split; [reflexivity|].
    constructor; [|exact Hn]. repeat split.
Qed.

Lemma selected_in_rows (st : state) (cid : Z) :
  current_selected_client_id st = Some cid ->
  exists i r, current st = Some i /\ get_row (rows st) i = Some r /\ r_id r = cid.
Proof.
  unfold current_selected_client_id. destruct (current st) as [i|]; [|discriminate].
  destruct (get_row (rows st) i) as [r|] eqn:E; [|discriminate].
  intros H. injection H as H. eauto.
Qed.





(** ** ORDER BY *)

Section OrderBy.

Context {A : Type} (le : A -> A -> bool).

Hypothesis le_total : forall a b, le a b = false -> le b a = true.
Hypothesis le_trans : forall a b c, le a b = true -> le b c = true -> le a c = true.

Lemma insert_by_perm (x : A) (l : list A) :
  Permutation (Sql.insert_by le x l) (x :: l).
Proof.
  induction l as [|y l IH]; cbn [Sql.insert_by]; [reflexivity|].
  destruct (le x y); [reflexivity|].
  rewrite IH. apply perm_swap.
Qed.

Lemma order_by_perm (l : list A) : Permutation (Sql.order_by le l) l.
Proof.
  unfold Sql.order_by.
  induction l as [|x l IH]; cbn [fold_right]; [reflexivity|].
  rewrite insert_by_perm. now constructor.
Qed.





Lemma order_by_In (x : A) (l : list A) : In x (Sql.order_by le l) <-> In x l.
Proof.
  split; apply Permutation_in; [|symmetry]; apply order_by_perm.
Qed.

End OrderBy.












(** ** The digest as a function of its blocks *)





(** ** Calendar order *)

Lemma date_ltb_spec (a b : date) :
  date_ltb a b = true <->
  year a < year b
  \/ (year a = year b
      /\ (month a < month b \/ (month a = month b /\ day a < day b))).
Proof.
  unfold date_ltb.
  rewrite !orb_true_iff, !andb_true_iff, !orb_true_iff, !andb_true_iff,
    !Z.ltb_lt, !Z.eqb_eq. tauto.
Qed.

Lemma date_leb_spec (a b : date) :
  date_leb a b = true <->
  date_ltb a b = true \/ (year a = year b /\ month a = month b /\ day a = day b).
Proof.
  unfold date_leb, date_eqb.
  rewrite orb_true_iff, !andb_true_iff, !Z.eqb_eq. tauto.
Qed.









(** ** C4: the window of the weekly digest *)







(** ** C9: the rows of the PDF report *)


(** ** C5: hidden clients *)


Lemma read_write_other (fn fn' text : string) (fs : files) :
  fn' <> fn -> read_file fn (write_file fn' text fs) = read_file fn fs.
Proof.
  intros H. unfold write_file. cbn [read_file].
  destruct (String.eqb_spec fn' fn); [contradiction|reflexivity].
Qed.

Lemma read_write_same (fn text : string) (fs : files) :
  read_file fn (write_file fn text fs) = Some text.
Proof. unfold write_file. cbn [read_file]. now rewrite String.eqb_refl. Qed.



(** ** Stripping *)





(** ** Dates of the form *)

Lemma edit_range_year (x : date) :
  Q.in_edit_range x = true ->
  1752 <= year x /\ date_ltb x Q.DATE_MIN = false /\ date_ltb Q.DATE_MAX x = false.
Proof.
  unfold Q.in_edit_range. rewrite andb_true_iff, !date_leb_spec.
  intros [H1 H2].
  assert (date_ltb x Q.DATE_MIN <> true /\ date_ltb Q.DATE_MAX x <> true
          /\ 1752 <= year x) as (A & B & C).
  { rewrite !date_ltb_spec in *. cbn [Q.DATE_MIN Q.DATE_MAX year month day] in *.
    lia. }
  repeat split; auto using not_true_is_false.
Qed.


(** The text of a form date reads back as that date. *)
Lemma str_to_qdate_iso (x : date) :
  Q.valid (year x) (month x) (day x) = true ->
  0 < year x ->
  str_to_qdate (Q.toString_iso x) = Some x.
Proof.
  intros Hv Hy.
  assert (1 <= month x /\ 1 <= day x) as [Hm Hd].
  { unfold Q.valid in Hv. rewrite !andb_true_iff, !Z.leb_le in Hv. lia. }
  unfold Q.toString_iso, str_to_qdate.
  replace (year x <? 0) with false by (symmetry; apply Z.ltb_ge; lia).
  rewrite Z.abs_eq by lia. cbn [append].
  destruct (str_nat_value (year x)) as (Ay & Ny & Vy); [lia|].
  destruct (str_nat_value (month x)) as (Am & Nm & Vm); [lia|].
  destruct (str_nat_value (day x)) as (Ad & Nd & Vd); [lia|].
  destruct (zfill_value 4 _ Ay Ny) as (Ay' & Ny' & Vy').
  destruct (zfill_value 2 _ Am Nm) as (Am' & Nm' & Vm').
  destruct (zfill_value 2 _ Ad Nd) as (Ad' & Nd' & Vd').
  rewrite unpack_ymd_digits by assumption.
  rewrite Vy', Vm', Vd', Vy, Vm, Vd.
  unfold Q.make. rewrite Hv. destruct x; reflexivity.
Qed.






(** ** Fresh ids *)

Lemma max_id_bound {A} (id : A -> Z) (l : list A) (x : A) :
  In x l -> id x <= Sql.max_id id l.
Proof.
  unfold Sql.max_id. induction l as [|y l IH]; cbn [fold_right In]; [tauto|].
  intros [-> | H]; [lia|]. specialize (IH H). lia.
Qed.

Lemma max_id_nonneg {A} (id : A -> Z) (l : list A) : 0 <= Sql.max_id id l.
Proof. unfold Sql.max_id. induction l; cbn [fold_right]; lia. Qed.


(** ** C3: save, load into the form, update *)







(** ** C8: import without the companion file *)

Lemma replace_fuel_empty (fuel : nat) (old new : string) :
  Py.replace_fuel fuel old new "" = "".
Proof. destruct fuel; reflexivity. Qed.

Lemma prefix_csv_short (c : ascii) (b : string) :
  prefix ".csv" (String c (b ++ ".cs")) = false ->
  prefix ".csv" (String c (b ++ ".csv")) = false.
Proof.
  cbn [prefix]. destruct (ascii_dec "." c); [|reflexivity].
  destruct b as [|c2 [|c3 [|c4 b]]]; cbn [append prefix];
    repeat match goal with
           | |- context [ascii_dec ?x ?y] => destruct (ascii_dec x y)
           end; try reflexivity; try discriminate; try congruence.
  destruct b; discriminate.
Qed.

(** When ".csv" occurs in the name only as its suffix, [companion] is the
    name with that suffix replaced. *)
Lemma companion_suffix (base : string) :
  occurs ".csv" (base ++ ".cs") = false ->
  companion (base ++ ".csv") = base ++ "_consultas.csv".
Proof.
  unfold companion, Py.replace.
  induction base as [|c b IH]; intros H; [reflexivity|].
  cbn [append String.length Py.replace_fuel].
  cbn [append occurs] in H. apply orb_false_iff in H as [H1 H2].
  change (String c (b ++ ".csv")) with (String c b ++ ".csv") at 1.
  cbn [append]. rewrite (prefix_csv_short c b H1). now rewrite (IH H2).
Qed.

(** C8 (as amended).  The companion name is the chosen name with every
    occurrence of ".csv" replaced ([str.replace]); when ".csv" occurs only
    as the suffix, that is the name with its suffix replaced.  Whenever the
    companion file does not exist, [import_csv] warns and returns the state
    it was given, whatever the answer to the confirmation would be: no row
    is deleted, the database is unchanged. *)
Theorem import_csv_missing_companion
  (fn_clients : string) (yes : bool) (fs : files) (st : state) :
  fn_clients <> "" ->
  exists_file (companion fn_clients) fs = false ->
  import_csv fn_clients yes fs st = Ok (st, Some MISSING_COMPANION)
  /\ (forall base r,
        fn_clients = base ++ ".csv" ->
        occurs ".csv" (base ++ ".cs") = false ->
        suffix_replaced fn_clients r ->
        r = companion fn_clients).
Proof.
  intros Hfn Hmiss. split.
  - unfold import_csv. destruct (String.eqb_spec fn_clients ""); [contradiction|].
    rewrite Hmiss. reflexivity.
  - intros base r -> Hocc (base' & E & ->).
    rewrite (companion_suffix base Hocc). f_equal.
    clear - E. revert base' E.
    induction base as [|c b IH]; intros [|c' b'] E; cbn [append] in E.
    + reflexivity.
    + exfalso. injection E as <- E.
      destruct b' as [|? [|? [|? [|? ?]]]]; discriminate E.
    + exfalso. injection E as <- E.
      destruct b as [|? [|? [|? [|? ?]]]]; discriminate E.
    + injection E as <- E. f_equal. now apply IH.
Qed.

Lemma import_csv_missing_companion_witness :
  exists_file (companion "clientes.csv") [("clientes.csv", clients_csv Ex.two_db)]
  = false
  /\ import_csv "clientes.csv" true
       [("clientes.csv", clients_csv Ex.two_db)] Ex.two_idle
     = Ok (Ex.two_idle, Some MISSING_COMPANION)
  /\ companion "clientes.csv" = "clientes_consultas.csv".
Proof.
  split; [reflexivity|].
  destruct (import_csv_missing_companion "clientes.csv" true
              [("clientes.csv", clients_csv Ex.two_db)] Ex.two_idle)
    as [H1 H2]; [discriminate | reflexivity |].
  split; [exact H1|].
  symmetry. apply (H2 "clientes"); [reflexivity | reflexivity |].
  exists "clientes". split; reflexivity.
Defined.

(** C8, as stated, fails when ".csv" occurs in the name before its
    suffix: the file named by replacing the suffix does not exist, yet the
    import finds the file named by replacing every occurrence, goes on and
    replaces the database. *)
Lemma import_csv_double_suffix :
  suffix_replaced Ex.double_fn "clientes.csv_consultas.csv"
  /\ exists_file "clientes.csv_consultas.csv" Ex.double_fs = false
  /\ companion Ex.double_fn = "clientes_consultas.csv_consultas.csv"
  /\ exists st',
       import_csv Ex.double_fn true Ex.double_fs Ex.two_idle
       = Ok (st', Some (Information "CSV" "Importação concluída."))
       /\ map a_date (appointments (db st'))
          = ["2024-06-09"; "2024-06-08"; "amanhã"; "2024-06-01"; "2024-05-31";
             "2024-06-03"]
       /\ map a_date (appointments (db Ex.two_idle))
          = ["2024-06-03"; "2024-04-03"; "2024-06-05"; "2024-05-03"].
Proof.
  split; [exists "clientes.csv"; split; reflexivity|].
  split; [reflexivity|]. split; [reflexivity|].
  eexists. split; [vm_compute; reflexivity|].
  split; reflexivity.
Qed.

(** ** Reading back what the CSV writer wrote *)

Lemma universal_newlines_app (a b : string) :
  no_char CR a = true ->
  Csv.universal_newlines (a ++ b) = a ++ Csv.universal_newlines b.
Proof.
  induction a as [|c a IH]; cbn [no_char append]; intros H; [reflexivity|].
  apply andb_true_iff in H as [Hc Ha]. apply negb_true_iff in Hc.
  cbn [Csv.universal_newlines]. rewrite Hc, (IH Ha). reflexivity.
Qed.

Lemma universal_newlines_crlf (b : string) :
  Csv.universal_newlines (Csv.CRLF ++ b) = String LF (Csv.universal_newlines b).
Proof. reflexivity. Qed.

Lemma file_lines_nil (s : string) : Csv.file_lines s = [] -> s = "".
Proof.
  destruct s as [|c s]; [reflexivity|]. cbn [Csv.file_lines].
  destruct (Ascii.eqb c LF); [discriminate|].
  destruct (Csv.file_lines s); discriminate.
Qed.

(** A character other than the line feed, with more text behind it, is
    one step of the parser. *)
Lemma records_char (p : Csv.parser) (c : ascii) (s : string) :
  Ascii.eqb c LF = false -> s <> "" ->
  Csv.records p (Csv.file_lines (String c s))
  = (p' <- Csv.process_char p (Some c) ;; Csv.records p' (Csv.file_lines s)).
Proof.
  intros Hc Hs. cbn [Csv.file_lines]. rewrite Hc.
  destruct (Csv.file_lines s) as [|l ls] eqn:E;
    [now apply file_lines_nil in E|].
  cbn [Csv.records Csv.feed].
  destruct (Csv.process_char p (Some c)); reflexivity.
Qed.

(** A line feed ends the line: the parser sees it, then the end-of-line
    mark, and the record is complete when it is back at its start state. *)
Lemma records_lf (p : Csv.parser) (s : string) :
  Csv.records p (Csv.file_lines (String LF s))
  = (p1 <- Csv.process_char p (Some LF) ;;
     p2 <- Csv.process_char p1 None ;;
     if Csv.at_start p2
     then rest <- Csv.records Csv.parse_reset (Csv.file_lines s) ;;
          Ok (Csv.fields p2 :: rest)
     else Csv.records p2 (Csv.file_lines s)).
Proof.
  cbn [Csv.file_lines]. change (Ascii.eqb LF LF) with true. cbv iota.
  cbn [Csv.records Csv.feed].
  destruct (Csv.process_char p (Some LF)); reflexivity.
Qed.

Lemma special_false (c : ascii) :
  Csv.special c = false ->
  Ascii.eqb c Csv.DELIMITER = false /\ Ascii.eqb c QUOTE = false
  /\ Ascii.eqb c CR = false /\ Ascii.eqb c LF = false.
Proof.
  unfold Csv.special. rewrite !orb_false_iff. tauto.
Qed.

Lemma add_char_ok (c : ascii) (st : Csv.pstate) (F : list string) (acc : string) :
  Z.of_nat (String.length acc) < Csv.FIELD_LIMIT ->
  Csv.add_char c st (Csv.mkParser st F acc)
  = Ok (Csv.mkParser st F (acc ++ String c "")).
Proof.
  intros H. unfold Csv.add_char. cbn [Csv.field Csv.fields].
  replace (Csv.FIELD_LIMIT <=? Z.of_nat (String.length acc)) with false
    by (symmetry; apply Z.leb_gt; exact H).
  reflexivity.
Qed.

Lemma add_char_from (c : ascii) (st st' : Csv.pstate) (F : list string)
  (acc : string) :
  Z.of_nat (String.length acc) < Csv.FIELD_LIMIT ->
  Csv.add_char c st' (Csv.mkParser st F acc)
  = Ok (Csv.mkParser st' F (acc ++ String c "")).
Proof.
  intros H. unfold Csv.add_char. cbn [Csv.field Csv.fields].
  replace (Csv.FIELD_LIMIT <=? Z.of_nat (String.length acc)) with false
    by (symmetry; apply Z.leb_gt; exact H).
  reflexivity.
Qed.

Lemma length_snoc_bound (acc t : string) (c : ascii) :
  Z.of_nat (String.length (acc ++ String c t)) <= Csv.FIELD_LIMIT ->
  Z.of_nat (String.length acc) < Csv.FIELD_LIMIT
  /\ Z.of_nat (String.length ((acc ++ String c "") ++ t)) <= Csv.FIELD_LIMIT.
Proof.
  rewrite !length_append. cbn [String.length]. lia.
Qed.

Lemma append_nonempty (a : string) (c : ascii) (b : string) :
  a ++ String c b <> "".
Proof. destruct a; discriminate. Qed.

(** The characters of an unquoted field are collected one by one. *)
Lemma plain_body (t : string) :
  forall F acc x rest,
    Csv.has_special t = false ->
    Z.of_nat (String.length (acc ++ t)) <= Csv.FIELD_LIMIT ->
    Csv.records (Csv.mkParser Csv.IN_FIELD F acc)
                (Csv.file_lines (t ++ String x rest))
    = Csv.records (Csv.mkParser Csv.IN_FIELD F (acc ++ t))
                  (Csv.file_lines (String x rest)).
Proof.
  induction t as [|c t IH]; intros F acc x rest Hs Hl; cbn [append].
  - now rewrite append_nil_r.
  - cbn [Csv.has_special] in Hs. apply orb_false_iff in Hs as [Hc Ht].
    destruct (special_false c Hc) as (Hd & Hq & Hcr & Hlf).
    destruct (length_snoc_bound acc t c Hl) as [Hlt Hl'].
    rewrite records_char by (auto using append_nonempty).
    unfold Csv.process_char. cbn [Csv.state]. unfold Csv.is_newline.
    rewrite Hlf, Hcr, Hd. cbn [orb]. rewrite add_char_ok by exact Hlt.
    cbn [bind]. rewrite (IH F _ x rest Ht Hl'), append_assoc. reflexivity.
Qed.

(** Inside quotes every character is collected, a doubled quote as one
    quote, a line feed across the line break. *)
Lemma quoted_body (t : string) :
  forall F acc x rest,
    Z.of_nat (String.length (acc ++ t)) <= Csv.FIELD_LIMIT ->
    Csv.records (Csv.mkParser Csv.IN_QUOTED_FIELD F acc)
                (Csv.file_lines (Csv.escape t ++ String x rest))
    = Csv.records (Csv.mkParser Csv.IN_QUOTED_FIELD F (acc ++ t))
                  (Csv.file_lines (String x rest)).
Proof.
  induction t as [|c t IH]; intros F acc x rest Hl; cbn [append Csv.escape].
  - now rewrite append_nil_r.
  - destruct (length_snoc_bound acc t c Hl) as [Hlt Hl'].
    destruct (Ascii.eqb c QUOTE) eqn:Hq.
    + apply Ascii.eqb_eq in Hq. subst c. cbn [append].
      rewrite records_char by (try reflexivity; discriminate).
      unfold Csv.process_char at 1. cbn [Csv.state].
      change (Ascii.eqb QUOTE QUOTE) with true. cbv iota. cbn [bind Csv.fields Csv.field].
      rewrite records_char by (auto using append_nonempty).
      unfold Csv.process_char at 1. cbn [Csv.state].
      change (Ascii.eqb QUOTE QUOTE) with true. cbv iota.
      rewrite add_char_from by exact Hlt. cbn [bind].
      rewrite (IH F _ x rest Hl'), append_assoc. reflexivity.
    + cbn [append]. destruct (Ascii.eqb c LF) eqn:Hlf.
      * apply Ascii.eqb_eq in Hlf. subst c.
        rewrite records_lf.
        unfold Csv.process_char at 1. cbn [Csv.state].
        change (Ascii.eqb LF QUOTE) with false. cbv iota.
        rewrite add_char_ok by exact Hlt. cbn [bind].
        unfold Csv.process_char at 1. cbn [Csv.state bind Csv.at_start].
        rewrite (IH F _ x rest Hl'), append_assoc. reflexivity.
      * rewrite records_char by (auto using append_nonempty).
        unfold Csv.process_char at 1. cbn [Csv.state]. rewrite Hq.
        rewrite add_char_ok by exact Hlt. cbn [bind].
        rewrite (IH F _ x rest Hl'), append_assoc. reflexivity.
Qed.

(** A written field takes the parser from the start of a field to the
    point where the field is read and its end is awaited. *)
Lemma field_body (t : string) (F : list string) (x : ascii) (rest : string) :
  Z.of_nat (String.length t) <= Csv.FIELD_LIMIT ->
  exists p,
    after_field p /\ Csv.fields p = F /\ Csv.field p = t
    /\ Csv.records (Csv.mkParser Csv.START_FIELD F "")
         (Csv.file_lines (Csv.write_field t ++ String x rest))
       = Csv.records p (Csv.file_lines (String x rest)).
Proof.
  intros Hl. unfold Csv.write_field.
  destruct (Csv.has_special t) eqn:Hs.
  - exists (Csv.mkParser Csv.QUOTE_IN_QUOTED_FIELD F t).
    repeat split. cbn [append]. rewrite append_assoc. cbn [append].
    rewrite records_char by (try reflexivity; apply append_nonempty).
    unfold Csv.process_char at 1. cbn [Csv.state Csv.is_newline].
    change (Csv.is_newline QUOTE) with false.
    change (Ascii.eqb QUOTE QUOTE) with true. cbv iota.
    cbn [bind Csv.fields Csv.field].
    rewrite (quoted_body t F "" QUOTE (String x rest)) by exact Hl.
    cbn [append].
    rewrite records_char by (try reflexivity; discriminate).
    unfold Csv.process_char at 1. cbn [Csv.state].
    change (Ascii.eqb QUOTE QUOTE) with true. cbv iota. reflexivity.
  - destruct t as [|c t].
    + exists (Csv.mkParser Csv.START_FIELD F ""). repeat split.
    + exists (Csv.mkParser Csv.IN_FIELD F (String c t)). repeat split.
      cbn [Csv.has_special] in Hs. apply orb_false_iff in Hs as [Hc Ht].
      destruct (special_false c Hc) as (Hd & Hq & Hcr & Hlf).
      cbn [append].
      rewrite records_char by (auto using append_nonempty).
      unfold Csv.process_char at 1. cbn [Csv.state]. unfold Csv.is_newline.
      rewrite Hlf, Hcr, Hq, Hd. cbn [orb].
      rewrite add_char_from by (cbn; unfold Csv.FIELD_LIMIT; lia).
      cbn [bind append].
      rewrite (plain_body t F (String c "") x rest Ht) by exact Hl.
      reflexivity.
Qed.

Lemma end_delimiter (p : Csv.parser) (rest : string) :
  after_field p -> rest <> "" ->
  Csv.records p (Csv.file_lines (String Csv.DELIMITER rest))
  = Csv.records
      (Csv.mkParser Csv.START_FIELD (Csv.fields p ++ [Csv.field p]) "")
      (Csv.file_lines rest).
Proof.
  intros Hp Hr. rewrite records_char by (try reflexivity; exact Hr).
  destruct p as [st F f]. unfold after_field in Hp. cbn [Csv.state] in Hp.
  destruct st; try contradiction; reflexivity.
Qed.

Lemma end_newline (p : Csv.parser) (rest : string) :
  after_field p ->
  Csv.records p (Csv.file_lines (String LF rest))
  = (rs <- Csv.records Csv.parse_reset (Csv.file_lines rest) ;;
     Ok ((Csv.fields p ++ [Csv.field p])%list :: rs)).
Proof.
  intros Hp. rewrite records_lf.
  destruct p as [st F f]. unfold after_field in Hp. cbn [Csv.state] in Hp.
  destruct st; try contradiction; reflexivity.
Qed.

Lemma join_fields_cons (t t2 : string) (ts : list string) :
  Csv.join_fields (t :: t2 :: ts)
  = Csv.write_field t ++ String Csv.DELIMITER (Csv.join_fields (t2 :: ts)).
Proof. reflexivity. Qed.

(** The fields of a record, from the start of any of its fields on. *)
Lemma record_fields (ts : list string) :
  forall t F rest,
    Forall text_ok (t :: ts) ->
    Csv.records (Csv.mkParser Csv.START_FIELD F "")
      (Csv.file_lines (Csv.join_fields (t :: ts) ++ String LF rest))
    = (rs <- Csv.records Csv.parse_reset (Csv.file_lines rest) ;;
       Ok ((F ++ t :: ts)%list :: rs)).
Proof.
  induction ts as [|t2 ts IH]; intros t F rest Hok;
    inversion Hok as [|? ? [_ Hl] Hok']; subst.
  - change (Csv.join_fields [t]) with (Csv.write_field t).
    destruct (field_body t F LF rest Hl) as (p & Hp & <- & <- & ->).
    now apply end_newline.
  - rewrite join_fields_cons, append_assoc. cbn [append].
    destruct (field_body t F Csv.DELIMITER
                (Csv.join_fields (t2 :: ts) ++ String LF rest) Hl)
      as (p & Hp & <- & <- & ->).
    rewrite end_delimiter by (auto using append_nonempty).
    rewrite (IH t2 _ rest Hok'), <- app_assoc. reflexivity.
Qed.

Lemma write_field_head (t : string) (x : ascii) (rest : string) :
  Csv.is_newline x = false -> rest <> "" ->
  exists c s, Csv.write_field t ++ String x rest = String c s
              /\ Csv.is_newline c = false /\ s <> "".
Proof.
  intros Hx Hr. unfold Csv.write_field.
  destruct (Csv.has_special t) eqn:Hs.
  - exists QUOTE, ((Csv.escape t ++ String QUOTE "") ++ String x rest).
    repeat split. apply append_nonempty.
  - destruct t as [|c t]; [exists x, rest; auto|].
    exists c, (t ++ String x rest). split; [reflexivity|].
    cbn [Csv.has_special] in Hs. apply orb_false_iff in Hs as [Hc _].
    destruct (special_false c Hc) as (_ & _ & Hcr & Hlf).
    unfold Csv.is_newline. rewrite Hlf, Hcr. split; [reflexivity|].
    apply append_nonempty.
Qed.

(** A whole record of two cells or more, from the start of a record. *)
Lemma record_row (r : list string) (rest : string) :
  record_ok r ->
  Csv.records Csv.parse_reset
    (Csv.file_lines (Csv.join_fields r ++ String LF rest))
  = (rs <- Csv.records Csv.parse_reset (Csv.file_lines rest) ;; Ok (r :: rs)).
Proof.
  intros [Hlen Hok]. destruct r as [|t [|t2 ts]]; cbn in Hlen; try lia.
  pose proof (record_fields (t2 :: ts) t [] rest Hok) as Hrec.
  cbn [app] in Hrec. rewrite <- Hrec. clear Hrec.
  rewrite join_fields_cons, append_assoc. cbn [append].
  destruct (write_field_head t Csv.DELIMITER
              (Csv.join_fields (t2 :: ts) ++ String LF rest) eq_refl)
    as (c & s & E & Hc & Hs); [apply append_nonempty|].
  rewrite E.
  assert (Ascii.eqb c LF = false) as Hlf
    by (unfold Csv.is_newline in Hc; now apply orb_false_iff in Hc).
  rewrite !records_char by assumption.
  unfold Csv.parse_reset, Csv.process_char. cbn [Csv.state]. now rewrite Hc.
Qed.

Lemma no_char_app (x : ascii) (a b : string) :
  no_char x (a ++ b) = no_char x a && no_char x b.
Proof.
  induction a as [|c a IH]; cbn [append no_char]; [reflexivity|].
  now rewrite IH, andb_assoc.
Qed.

Lemma escape_no_cr (t : string) : no_char CR (Csv.escape t) = no_char CR t.
Proof.
  induction t as [|c t IH]; cbn [Csv.escape no_char]; [reflexivity|].
  destruct (Ascii.eqb c QUOTE) eqn:E; cbn [no_char]; rewrite IH; [|reflexivity].
  apply Ascii.eqb_eq in E. subst c. reflexivity.
Qed.

Lemma write_field_no_cr (t : string) :
  no_char CR t = true -> no_char CR (Csv.write_field t) = true.
Proof.
  intros H. unfold Csv.write_field. destruct (Csv.has_special t); [|exact H].
  cbn [no_char]. rewrite no_char_app, escape_no_cr, H. reflexivity.
Qed.

Lemma join_fields_no_cr (ts : list string) :
  Forall text_ok ts -> no_char CR (Csv.join_fields ts) = true.
Proof.
  induction ts as [|t ts IH]; intros H; [reflexivity|].
  inversion H as [|? ? [Ht _] Hts]; subst.
  destruct ts as [|t2 ts]; [now apply write_field_no_cr|].
  rewrite join_fields_cons, no_char_app. cbn [no_char].
  rewrite (write_field_no_cr t Ht), (IH Hts). reflexivity.
Qed.

Lemma writerow_record (r : list pyval) :
  record_ok (map Csv.text_of r) ->
  Csv.writerow r = Csv.join_fields (map Csv.text_of r) ++ Csv.CRLF.
Proof.
  intros [Hlen _]. destruct r as [|v1 [|v2 vs]]; cbn in Hlen; try lia.
  unfold Csv.writerow. cbn [map]. rewrite join_fields_cons.
  destruct (Csv.write_field (Csv.text_of v1)); reflexivity.
Qed.

(** The reader returns the cells the writer was given. *)
Lemma reader_writerows (R : list (list pyval)) :
  Forall (fun r => record_ok (map Csv.text_of r)) R ->
  Csv.reader (Csv.writerows R) = Ok (map (map Csv.text_of) R).
Proof.
  unfold Csv.reader. induction 1 as [|r R Hr _ IH]; [reflexivity|].
  cbn [Csv.writerows map]. rewrite (writerow_record r Hr), append_assoc.
  rewrite universal_newlines_app by (apply join_fields_no_cr, Hr).
  rewrite universal_newlines_crlf, (record_row _ _ Hr), IH. reflexivity.
Qed.

(** ** Cells of the exported rows *)

Lemma digits_no_cr (s : string) : all_digits s = true -> no_char CR s = true.
Proof.
  induction s as [|c s IH]; cbn [all_digits no_char]; intros H; [reflexivity|].
  apply andb_true_iff in H as [Hc Hs]. rewrite (IH Hs), andb_true_r.
  destruct c as [[] [] [] [] [] [] [] []]; try discriminate Hc; reflexivity.
Qed.

Lemma digits_fuel_length (fuel : nat) :
  forall n acc,
    (String.length (Py.digits_fuel fuel n acc) <= fuel + String.length acc)%nat.
Proof.
  induction fuel as [|f IH]; intros n acc; [cbn; lia|].
  rewrite digits_fuel_step. destruct (n <? 10); [cbn [String.length]; lia|].
  specialize (IH (n / 10) (String (Py.digit_char (n mod 10)) acc)).
  cbn [String.length] in IH. lia.
Qed.

Lemma str_nat_text_ok (n : Z) : 0 <= n <= 2 ^ 63 -> 
  no_char CR (Py.str_nat n) = true
  /\ (String.length (Py.str_nat n) <= 65)%nat
  /\ Py.str_nat n <> "".
Proof.
  intros H. destruct (str_nat_value n) as (Hall & Hne & _); [lia|].
  split; [now apply digits_no_cr|]. split; [|exact Hne].
  unfold Py.str_nat.
  pose proof (digits_fuel_length (S (Z.to_nat (Z.log2 n))) n "") as Hl.
  cbn [String.length] in Hl.
  assert (Z.log2 n <= 63) as Hlog.
  { pose proof (Z.log2_le_mono n (2 ^ 63) ltac:(lia)) as Hm.
    rewrite Z.log2_pow2 in Hm by lia. exact Hm. }
  pose proof (Z.log2_nonneg n). lia.
Qed.

Lemma str_text_ok (z : Z) : int64 z -> text_ok (Py.str z) /\ Py.str z <> "".
Proof.
  unfold int64, text_ok, Py.str, Csv.FIELD_LIMIT. intros H.
  destruct (z <? 0) eqn:E.
  - apply Z.ltb_lt in E.
    destruct (str_nat_text_ok (- z)) as (H1 & H2 & _); [lia|].
    cbn [no_char String.length]. rewrite H1.
    repeat split; [lia|discriminate].
  - apply Z.ltb_ge in E.
    destruct (str_nat_text_ok z) as (H1 & H2 & H3); [lia|].
    repeat split; [exact H1|lia|exact H3].
Qed.

Lemma empty_text_ok : text_ok "".
Proof. split; [reflexivity|unfold Csv.FIELD_LIMIT; cbn; lia]. Qed.

Lemma client_record_ok (c : client) :
  client_ok c -> record_ok (map Csv.text_of (client_values c)).
Proof.
  destruct c as [k nm age wh fc pl pd rs nt hd].
  unfold client_ok. cbn [c_id c_name c_age c_whatsapp c_first_consult
    c_plan_months c_paid_returns c_rescheduled c_notes c_hidden].
  intros (Hk & Hnm & Hage & Hwh & Hfc & Hpl & Hpd & Hrs & Hnt & Hhd).
  split; [cbn; lia|].
  destruct wh as [wh|], pl as [pl|], pd as [pd|], rs as [rs|], nt as [nt|],
    hd as [hd|]; try contradiction.
  cbn [some_ok opt_ok] in *.
  cbn [client_values map Csv.text_of of_int of_text c_id c_name c_age
       c_whatsapp c_first_consult c_plan_months c_paid_returns c_rescheduled
       c_notes c_hidden].
  repeat apply Forall_cons; try apply Forall_nil;
    try assumption; try (now apply str_text_ok).
  - destruct age as [a|]; [now apply str_text_ok|apply empty_text_ok].
  - destruct fc as [s|]; [apply Hfc|apply empty_text_ok].
Qed.

Lemma appointment_record_ok (a : appointment) :
  appointment_ok a -> record_ok (map Csv.text_of (appointment_values a)).
Proof.
  destruct a as [k cid dt kd stt].
  unfold appointment_ok. cbn [a_client_id a_date a_kind a_status].
  intros (Hc & Hd & Hk & Hs).
  split; [cbn; lia|].
  destruct kd as [kd|], stt as [stt|]; try contradiction.
  cbn [some_ok] in *.
  cbn [appointment_values map Csv.text_of of_int of_text a_client_id a_date
       a_kind a_status].
  repeat apply Forall_cons; try apply Forall_nil; try assumption.
  now apply str_text_ok.
Qed.

Lemma header_record_ok (cols : list string) :
  (2 <= List.length cols)%nat -> Forall text_ok cols ->
  record_ok (map Csv.text_of (map PStr cols))
  /\ map Csv.text_of (map PStr cols) = cols.
Proof.
  intros Hl Hok.
  assert (map Csv.text_of (map PStr cols) = cols) as E
    by (rewrite map_map; apply map_id).
  rewrite E. repeat split; assumption.
Qed.

Lemma columns_ok :
  Forall text_ok CLIENT_COLUMNS /\ Forall text_ok APPOINTMENT_COLUMNS.
Proof.
  split; repeat apply Forall_cons; try apply Forall_nil;
    (split; [reflexivity|unfold Csv.FIELD_LIMIT; cbn; lia]).
Qed.

Lemma dict_rows_records {A} (cols : list string) (vals : A -> list pyval)
  (l : list A) :
  (forall x, vals x <> []) ->
  Csv.dict_rows (cols :: map (map Csv.text_of) (map vals l))
  = map (fun x => Csv.zip_row cols (map Csv.text_of (vals x))) l.
Proof.
  intros Hne. cbn [Csv.dict_rows].
  induction l as [|x l IH]; [reflexivity|].
  cbn [map filter]. specialize (Hne x).
  destruct (vals x) as [|v vs]; [congruence|].
  cbn [map Csv.is_empty_row negb]. now rewrite IH.
Qed.

(** The client file reads back as one dict per client. *)
Lemma dict_reader_clients (d : database) :
  Forall client_ok (clients d) ->
  Csv.dict_reader (clients_csv d) = Ok (map client_dict (clients d)).
Proof.
  intros Hok. unfold Csv.dict_reader, clients_csv.
  change (Csv.writerow (map PStr CLIENT_COLUMNS)
          ++ Csv.writerows (map client_values (clients d)))
    with (Csv.writerows (map PStr CLIENT_COLUMNS
                         :: map client_values (clients d))).
  destruct (header_record_ok CLIENT_COLUMNS) as [Hh Eh];
    [cbn; lia | apply columns_ok |].
  rewrite reader_writerows.
  - cbn [bind map]. rewrite Eh. f_equal.
    apply dict_rows_records. discriminate.
  - constructor; [exact Hh|]. apply Forall_map.
    eapply Forall_impl; [|exact Hok]. apply client_record_ok.
Qed.

(** The appointment file reads back as one dict per appointment. *)
Lemma dict_reader_appointments (d : database) :
  Forall appointment_ok (appointments d) ->
  Csv.dict_reader (appointments_csv d)
  = Ok (map appointment_dict (appointments d)).
Proof.
  intros Hok. unfold Csv.dict_reader, appointments_csv.
  change (Csv.writerow (map PStr APPOINTMENT_COLUMNS)
          ++ Csv.writerows (map appointment_values (appointments d)))
    with (Csv.writerows (map PStr APPOINTMENT_COLUMNS
                         :: map appointment_values (appointments d))).
  destruct (header_record_ok APPOINTMENT_COLUMNS) as [Hh Eh];
    [cbn; lia | apply columns_ok |].
  rewrite reader_writerows.
  - cbn [bind map]. rewrite Eh. f_equal.
    apply dict_rows_records. discriminate.
  - constructor; [exact Hh|]. apply Forall_map.
    eapply Forall_impl; [|exact Hok]. apply appointment_record_ok.
Qed.

(** ** Importing the exported rows *)

Lemma client_dict_get (x0 x1 x2 x3 x4 x5 x6 x7 x8 x9 : string) :
  let row := Csv.zip_row CLIENT_COLUMNS [x0; x1; x2; x3; x4; x5; x6; x7; x8; x9] in
  Csv.getitem row "id" = Ok (Some x0)
  /\ Csv.getitem row "name" = Ok (Some x1)
  /\ Csv.getitem row "age" = Ok (Some x2)
  /\ Csv.getitem row "whatsapp" = Ok (Some x3)
  /\ Csv.getitem row "first_consult" = Ok (Some x4)
  /\ Csv.getitem row "plan_months" = Ok (Some x5)
  /\ Csv.getitem row "paid_returns" = Ok (Some x6)
  /\ Csv.getitem row "rescheduled" = Ok (Some x7)
  /\ Csv.getitem row "notes" = Ok (Some x8)
  /\ Csv.getitem row "hidden" = Ok (Some x9).
Proof. repeat split. Qed.

Lemma appointment_dict_get (x0 x1 x2 x3 : string) :
  let row := Csv.zip_row APPOINTMENT_COLUMNS [x0; x1; x2; x3] in
  Csv.getitem row "client_id" = Ok (Some x0)
  /\ Csv.getitem row "date" = Ok (Some x1)
  /\ Csv.getitem row "kind" = Ok (Some x2)
  /\ Csv.getitem row "status" = Ok (Some x3).
Proof. repeat split. Qed.

Lemma str_nonempty (z : Z) : exists c s, Py.str z = String c s.
Proof.
  unfold Py.str. destruct (z <? 0) eqn:E; [eauto|].
  apply Z.ltb_ge in E. destruct (str_nat_value z E) as (_ & Hne & _).
  destruct (Py.str_nat z); [congruence|eauto].
Qed.

Lemma int_of_cell_str (z : Z) : int_of_cell (Some (Py.str z)) = Ok z.
Proof. apply int_str. Qed.

Lemma cell_true_str (z : Z) : cell_true (Some (Py.str z)) = true.
Proof. destruct (str_nonempty z) as (c & s & ->). reflexivity. Qed.

Lemma int_of_cell_or_str (z dflt : Z) :
  int_of_cell_or (Some (Py.str z)) dflt = Ok z.
Proof. unfold int_of_cell_or. now rewrite cell_true_str, int_of_cell_str. Qed.

Lemma has_id_fresh {A} (id : A -> Z) (k : Z) (l : list A) :
  (forall x, In x l -> id x < k) -> Sql.has_id id k l = false.
Proof.
  unfold Sql.has_id. induction l as [|y l IH]; intros H; [reflexivity|].
  cbn [existsb]. rewrite IH by (intros x Hx; apply H; now right).
  replace (id y =? k) with false; [reflexivity|].
  symmetry. apply Z.eqb_neq. specialize (H y (or_introl eq_refl)). lia.
Qed.

Lemma place_fresh {A} (id : A -> Z) (r : A) (l : list A) :
  (forall x, In x l -> id x < id r) -> Sql.place id r l = (l ++ [r])%list.
Proof.
  induction l as [|y l IH]; intros H; [reflexivity|].
  cbn [Sql.place app]. rewrite IH by (intros x Hx; apply H; now right).
  replace (id r <? id y) with false; [reflexivity|].
  symmetry. apply Z.ltb_ge. specialize (H y (or_introl eq_refl)). lia.
Qed.

(** Importing the dict of an exported client appends that very row. *)
Lemma import_client_row (c : client) (d : database) :
  client_ok c ->
  (forall x, In x (clients d) -> c_id x < c_id c) ->
  import_client (client_dict c) d
  = Ok (mkDb (clients d ++ [c]) (appointments d)
             (Z.max (clients_seq d) (c_id c)) (appointments_seq d)).
Proof.
  destruct c as [k nm age wh fc pl pd rs nt hd].
  unfold client_ok. cbn [c_id c_name c_age c_whatsapp c_first_consult
    c_plan_months c_paid_returns c_rescheduled c_notes c_hidden].
  intros (_ & _ & _ & Hwh & Hfc & Hpl & Hpd & Hrs & Hnt & Hhd) Hfresh.
  destruct wh as [wh|], pl as [pl|], pd as [pd|], rs as [rs|], nt as [nt|],
    hd as [hd|]; try contradiction.
  assert (fc <> Some "") as Hfc'
    by (intros ->; cbn [opt_ok] in Hfc; now destruct Hfc).
  unfold client_dict.
  destruct age as [a|], fc as [[|f0 fs]|]; try congruence;
    cbn [client_values map Csv.text_of of_int of_text c_id c_name c_age
         c_whatsapp c_first_consult c_plan_months c_paid_returns c_rescheduled
         c_notes c_hidden];
    match goal with
    | |- context [Csv.zip_row CLIENT_COLUMNS
                    [?x0; ?x1; ?x2; ?x3; ?x4; ?x5; ?x6; ?x7; ?x8; ?x9]] =>
        destruct (client_dict_get x0 x1 x2 x3 x4 x5 x6 x7 x8 x9)
          as (G0 & G1 & G2 & G3 & G4 & G5 & G6 & G7 & G8 & G9)
    end;
    unfold import_client;
    rewrite G0, G1, G2, G3, G4, G5, G6, G7, G8, G9; cbn [bind];
    rewrite ?cell_true_str, ?int_of_cell_str, ?int_of_cell_or_str;
    cbn [bind cell_true];
    rewrite ?int_of_cell_or_str; cbn [bind];
    unfold Sql.insert_client_with_id;
    rewrite has_id_fresh by exact Hfresh;
    rewrite place_fresh by exact Hfresh; reflexivity.
Qed.

Lemma import_clients (cs : list client) :
  forall d,
    Forall client_ok cs ->
    StronglySorted (fun a b => c_id a < c_id b) cs ->
    (forall x c, In x (clients d) -> In c cs -> c_id x < c_id c) ->
    exists seq,
      for_rows import_client (map client_dict cs) d
      = Ok (mkDb (clients d ++ cs) (appointments d) seq (appointments_seq d)).
Proof.
  induction cs as [|c cs IH]; intros d Hok Hs Hlt; cbn [map for_rows].
  - exists (clients_seq d). rewrite app_nil_r. now destruct d.
  - inversion Hok as [|? ? Hc Hcs]; subst.
    inversion Hs as [|? ? Hs' Hall]; subst.
    rewrite import_client_row; [|exact Hc|intros x Hx; apply Hlt; [exact Hx|now left]].
    cbn [bind].
    destruct (IH (mkDb (clients d ++ [c]) (appointments d)
                       (Z.max (clients_seq d) (c_id c)) (appointments_seq d))
                 Hcs Hs') as (seq & E).
    + cbn [clients]. intros x c' Hx Hc'.
      apply in_app_or in Hx as [Hx | [<- | []]].
      * apply Hlt; [exact Hx|now right].
      * rewrite Forall_forall in Hall. now apply Hall.
    + exists seq. rewrite E. cbn [clients appointments appointments_seq].
      now rewrite <- app_assoc.
Qed.

(** Importing the dict of an exported appointment appends its fields
    under a new id. *)
Lemma import_appointment_row (a : appointment) (d : database) :
  appointment_ok a ->
  import_appointment (appointment_dict a) d
  = Ok (mkDb (clients d)
             (appointments d
              ++ [mkAppt (Sql.next_id a_id (appointments d) (appointments_seq d))
                         (a_client_id a) (a_date a) (a_kind a) (a_status a)])
             (clients_seq d)
             (Sql.next_id a_id (appointments d) (appointments_seq d))).
Proof.
  destruct a as [k cid dt kd stt].
  unfold appointment_ok. cbn [a_client_id a_date a_kind a_status].
  intros (_ & _ & Hk & Hs).
  destruct kd as [kd|], stt as [stt|]; try contradiction.
  unfold appointment_dict.
  cbn [appointment_values map Csv.text_of of_int of_text a_client_id a_date
       a_kind a_status].
  match goal with
  | |- context [Csv.zip_row APPOINTMENT_COLUMNS [?x0; ?x1; ?x2; ?x3]] =>
      destruct (appointment_dict_get x0 x1 x2 x3) as (G0 & G1 & G2 & G3)
  end.
  unfold import_appointment. rewrite G0, G1, G2, G3. cbn [bind].
  rewrite int_of_cell_str. reflexivity.
Qed.

Lemma import_appointments (l : list appointment) :
  forall d,
    Forall appointment_ok l ->
    exists d',
      for_rows import_appointment (map appointment_dict l) d = Ok d'
      /\ clients d' = clients d
      /\ clients_seq d' = clients_seq d
      /\ map appointment_fields (appointments d')
         = (map appointment_fields (appointments d)
            ++ map appointment_fields l)%list.
Proof.
  induction l as [|a l IH]; intros d Hok; cbn [map for_rows].
  - exists d. rewrite app_nil_r. auto.
  - inversion Hok as [|? ? Ha Hl]; subst.
    rewrite (import_appointment_row a d Ha). cbn [bind].
    match goal with
    | |- context [for_rows _ _ ?d1] =>
        destruct (IH d1 Hl) as (d' & E & Hc & Hs & Hf)
    end.
    exists d'. rewrite E, Hc, Hs, Hf. cbn [clients clients_seq appointments].
    rewrite map_app, <- app_assoc. auto.
Qed.

(** ** C2: export, then import *)

Lemma exists_written (fn text : string) (fs : files) :
  exists_file fn (write_file fn text fs) = true.
Proof. unfold exists_file. now rewrite read_write_same. Qed.

(** C2 (as amended).  Take a database whose rows are as the application
    writes them (clients in rowid order; no NULL outside age and
    first_consult; first_consult never empty; text without carriage return
    and within the reader's field limit) and a file name in which ".csv"
    occurs.  Exporting it and importing the two files, into any state,
    succeeds and leaves a [clients] table identical to the exported one, ids
    included, and appointments with the same client_id, date, kind and
    status, in the same order.  The ids of the appointments are not in the
    file; the import numbers them afresh. *)
Theorem export_import_roundtrip
  (fn : string) (fs : files) (d : database) (st : state) :
  fn <> "" ->
  companion fn <> fn ->
  exportable d ->
  exists st',
    import_csv fn true (fst (export_csv fn fs d)) st
    = Ok (st', Some (Information "CSV" "Importação concluída."))
    /\ clients (db st') = clients d
    /\ map appointment_fields (appointments (db st'))
       = map appointment_fields (appointments d)
    /\ rows st' = load (db st').
Proof.
  intros Hfn Hcomp (Hsorted & Hclients & Happts).
  unfold export_csv. destruct (String.eqb_spec fn ""); [contradiction|].
  cbn [fst]. unfold import_csv.
  destruct (String.eqb_spec fn ""); [contradiction|].
  rewrite exists_written. cbn [negb].
  unfold import_db, open_read.
  rewrite read_write_other by exact Hcomp.
  rewrite !read_write_same. cbn [bind].
  rewrite (dict_reader_clients d Hclients). cbn [bind].
  destruct (import_clients (clients d) (Sql.delete_all (db st)) Hclients Hsorted)
    as (seq & E); [intros x c []|].
  rewrite E. cbn [bind Sql.delete_all clients appointments appointments_seq app].
  rewrite (dict_reader_appointments d Happts). cbn [bind].
  match goal with
  | |- context [for_rows import_appointment _ ?d1] =>
      destruct (import_appointments (appointments d) d1 Happts)
        as (d' & E' & Hc & _ & Hf)
  end.
  rewrite E'. cbn [bind]. eexists. split; [reflexivity|].
  cbn [load_table db rows]. rewrite Hc, Hf. auto.
Qed.

Lemma week_db_exportable : exportable Ex.week_db.
Proof.
  unfold exportable, Ex.week_db. cbn [clients appointments].
  split; [|split].
  - repeat constructor.
  - repeat apply Forall_cons; try apply Forall_nil;
      unfold client_ok, int64, text_ok, Csv.FIELD_LIMIT; cbn;
      repeat split; try reflexivity; try discriminate; try lia.
  - repeat apply Forall_cons; try apply Forall_nil;
      unfold appointment_ok, int64, text_ok, Csv.FIELD_LIMIT; cbn;
      repeat split; try reflexivity; try discriminate; try lia.
Qed.

Lemma export_import_roundtrip_witness :
  exists st',
    import_csv "clientes.csv" true
      (fst (export_csv "clientes.csv" [] Ex.week_db)) Ex.two_idle
    = Ok (st', Some (Information "CSV" "Importação concluída."))
    /\ clients (db st') = [Ex.bea; Ex.caio]
    /\ map a_date (appointments (db st'))
       = map a_date (appointments Ex.week_db).
Proof.
  destruct (export_import_roundtrip "clientes.csv" [] Ex.week_db Ex.two_idle)
    as (st' & H & Hc & Ha & _);
    [discriminate | discriminate | exact week_db_exportable |].
  exists st'. split; [exact H|]. split; [exact Hc|].
  apply (f_equal (map (fun t => snd (fst (fst t))))) in Ha.
  rewrite !map_map in Ha. exact Ha.
Defined.

(** C2, as stated, fails.  After saving one client with two dates,
    exporting and importing gives the two appointments the ids 3 and 4
    instead of 1 and 2: the appointment file has no id column and the
    AUTOINCREMENT counter goes on.  And a row whose nullable columns are NULL
    comes back with empty text, plan 2 and zeros. *)
Lemma export_import_renumbers_appointments :
  (exists st',
     import_csv "clientes.csv" true
       (fst (export_csv "clientes.csv" [] (db Ex.saved))) Ex.saved
     = Ok (st', Some (Information "CSV" "Importação concluída."))
     /\ map a_id (appointments (db Ex.saved)) = [1; 2]
     /\ map a_id (appointments (db st')) = [3; 4]
     /\ appointments (db st') <> appointments (db Ex.saved))
  /\ (exists st',
        import_csv "clientes.csv" true
          (fst (export_csv "clientes.csv" [] Ex.lia_db)) Ex.start
        = Ok (st', Some (Information "CSV" "Importação concluída."))
        /\ clients (db st')
           = [mkClient 7 "Lia" None (Some "") None (Some 2) (Some 0) (Some 0)
                       (Some "") (Some 0)]
        /\ clients (db st') <> clients Ex.lia_db).
Proof.
  split.
  - eexists. split; [vm_compute; reflexivity|].
    split; [reflexivity|]. split; [reflexivity|]. discriminate.
  - eexists. split; [vm_compute; reflexivity|].
    split; [reflexivity|]. discriminate.
Qed.

(** Why the round trip asks for text without carriage return: the import
    opens the file with universal newlines, so a carriage return inside a
    quoted cell is read back as a line feed. *)
Example reader_carriage_return :
  Csv.reader (Csv.writerows [[PStr (String "a" (String CR "b")); PStr "x"]])
  = Ok [[String "a" (String LF "b"); "x"]].
Proof. reflexivity. Qed.

(* ================================================================== *)
(** * Further properties of the handlers *)

(** ** Rowids stay distinct, ordered and below the counter *)

Lemma strongly_sorted_snoc {A} (R : A -> A -> Prop) (l : list A) (r : A) :
  StronglySorted R l -> Forall (fun x => R x r) l ->
  StronglySorted R (l ++ [r]).
Proof.
  induction 1 as [|x l Hs IH Hx]; intros Hr; cbn [app].
  - repeat constructor.
  - inversion Hr as [|? ? Hxr Hlr]; subst.
    constructor; [now apply IH|].
    apply Forall_app. split; [exact Hx|]. now constructor.
Qed.

Lemma strongly_sorted_filter {A} (R : A -> A -> Prop) (p : A -> bool)
  (l : list A) :
  StronglySorted R l -> StronglySorted R (filter p l).
Proof.
  induction 1 as [|x l Hs IH Hx]; cbn [filter]; [constructor|].
  destruct (p x); [|exact IH].
  constructor; [exact IH|].
  rewrite Forall_forall in *. intros y Hy. apply Hx.
  now apply filter_In in Hy.
Qed.

Lemma forall_filter {A} (P : A -> Prop) (p : A -> bool) (l : list A) :
  Forall P l -> Forall P (filter p l).
Proof.
  rewrite !Forall_forall. intros H x Hx. apply H. now apply filter_In in Hx.
Qed.

Lemma ids_ok_nil {A} (id : A -> Z) (seq : Z) : 0 <= seq -> ids_ok id [] seq.
Proof. intros H. repeat split; [constructor|constructor|exact H]. Qed.

Lemma ids_ok_next {A} (id : A -> Z) (l : list A) (seq : Z) (r : A) :
  ids_ok id l seq ->
  id r = Sql.next_id id l seq ->
  ids_ok id (l ++ [r]) (Sql.next_id id l seq).
Proof.
  intros (Hs & Hb & Hseq) Hr. unfold Sql.next_id in *.
  pose proof (max_id_nonneg id l) as Hm.
  split; [|split].
  - apply strongly_sorted_snoc; [exact Hs|].
    eapply Forall_impl; [|exact Hb]. cbv beta. intros x Hx. lia.
  - apply Forall_app. split.
    + eapply Forall_impl; [|exact Hb]. cbv beta. intros x Hx. lia.
    + constructor; [lia|constructor].
  - lia.
Qed.

Lemma ids_ok_filter {A} (id : A -> Z) (p : A -> bool) (l : list A) (seq : Z) :
  ids_ok id l seq -> ids_ok id (filter p l) seq.
Proof.
  intros (Hs & Hb & Hseq).
  repeat split; auto using strongly_sorted_filter, forall_filter.
Qed.

Lemma ids_ok_map {A} (id : A -> Z) (f : A -> A) (l : list A) (seq : Z) :
  (forall x, id (f x) = id x) ->
  ids_ok id l seq -> ids_ok id (map f l) seq.
Proof.
  intros Hf (Hs & Hb & Hseq). split; [|split; [|exact Hseq]].
  - clear Hb. induction Hs as [|x l Hs IH Hx]; cbn [map]; constructor; auto.
    apply Forall_map. eapply Forall_impl; [|exact Hx].
    cbv beta. intros y Hy. now rewrite !Hf.
  - apply Forall_map. eapply Forall_impl; [|exact Hb].
    cbv beta. intros y Hy. now rewrite Hf.
Qed.

Lemma place_In {A} (id : A -> Z) (r : A) (l : list A) (y : A) :
  In y (Sql.place id r l) <-> y = r \/ In y l.
Proof.
  induction l as [|x l IH]; cbn [Sql.place In]; [intuition|].
  destruct (id r <? id x); cbn [In]; [intuition|].
  rewrite IH. intuition.
Qed.

Lemma ids_ok_place {A} (id : A -> Z) (r : A) (l : list A) (seq : Z) :
  ids_ok id l seq ->
  Sql.has_id id (id r) l = false ->
  ids_ok id (Sql.place id r l) (Z.max seq (id r)).
Proof.
  intros (Hs & Hb & Hseq) Hnew. split; [|split; [|lia]].
  - clear Hb. unfold Sql.has_id in Hnew.
    induction Hs as [|x l Hs IH Hx]; cbn [Sql.place].
    + repeat constructor.
    + cbn [existsb] in Hnew. apply orb_false_iff in Hnew as [Hx' Hl].
      apply Z.eqb_neq in Hx'.
      destruct (id r <? id x) eqn:E.
      * apply Z.ltb_lt in E. constructor; [now constructor|].
        constructor; [exact E|].
        eapply Forall_impl; [|exact Hx]. cbv beta. intros y Hy. lia.
      * apply Z.ltb_ge in E. constructor; [now apply IH|].
        rewrite Forall_forall in *. intros y Hy.
        apply place_In in Hy as [-> | Hy]; [lia|now apply Hx].
  - rewrite Forall_forall in *. intros y Hy.
    apply place_In in Hy as [-> | Hy]; [lia|].
    specialize (Hb y Hy). cbv beta in Hb. lia.
Qed.

Lemma insert_scheduled_all_db_ok (cid : Z) (ds : list string) :
  forall d, db_ok d -> db_ok (Sql.insert_scheduled_all cid ds d).
Proof.
  unfold Sql.insert_scheduled_all.
  induction ds as [|x ds IH]; intros d H; cbn [fold_left]; [exact H|].
  apply IH. destruct H as [Hc Ha]. split; [exact Hc|].
  cbn [Sql.insert_scheduled appointments appointments_seq].
  now apply ids_ok_next.
Qed.

Lemma insert_client_db_ok (name : string) (age : Z) (whats first : string)
  (plan paid resch : Z) (notes : string) (hidden : Z) (d : database) :
  db_ok d ->
  db_ok (fst (Sql.insert_client name age whats first plan paid resch notes
                                hidden d)).
Proof.
  intros [Hc Ha]. split; [|exact Ha].
  cbn [Sql.insert_client fst clients clients_seq]. now apply ids_ok_next.
Qed.

Lemma update_db_db_ok (cid : Z) (f : form) (plan : Z) (d : database) :
  db_ok d -> db_ok (update_db cid f plan d).
Proof.
  intros [Hc Ha]. unfold update_db. apply insert_scheduled_all_db_ok.
  split.
  - cbn [Sql.delete_scheduled Sql.update_client clients clients_seq].
    apply ids_ok_map; [|exact Hc].
    intros x. destruct (c_id x =? cid); reflexivity.
  - cbn [Sql.delete_scheduled Sql.update_client appointments appointments_seq].
    now apply ids_ok_filter.
Qed.

Lemma remove_db_ok (cid : Z) (d : database) :
  db_ok d ->
  db_ok (Sql.delete_client cid (Sql.delete_appointments_of cid d)).
Proof.
  intros [Hc Ha]. split; cbn; now apply ids_ok_filter.
Qed.

Ltac invert_bind H :=
  repeat match type of H with
         | bind ?r _ = Ok _ =>
             let E := fresh "E" in
             destruct r eqn:E; cbn [bind] in H; [|discriminate H]
         end.

Lemma insert_client_with_id_db_ok
  (k : Z) (name : option string) (age : option Z) (whats first : option string)
  (plan paid resch : Z) (notes : option string) (hidden : Z) (d d' : database) :
  Sql.insert_client_with_id k name age whats first plan paid resch notes hidden d
  = Ok d' ->
  db_ok d -> db_ok d'.
Proof.
  unfold Sql.insert_client_with_id. destruct name as [nm|]; [|discriminate].
  destruct (Sql.has_id c_id k (clients d)) eqn:E; [discriminate|].
  intros H [Hc Ha]. injection H as <-. split; [|exact Ha].
  cbn [clients clients_seq].
  match goal with
  | |- ids_ok c_id (Sql.place c_id ?r _) _ =>
      change k with (c_id r) at 2; apply (ids_ok_place c_id r); assumption
  end.
Qed.

Lemma import_client_db_ok (row : Csv.dict) (d d' : database) :
  import_client row d = Ok d' -> db_ok d -> db_ok d'.
Proof.
  unfold import_client. intros H. invert_bind H.
  revert H. apply insert_client_with_id_db_ok.
Qed.

Lemma import_appointment_db_ok (row : Csv.dict) (d d' : database) :
  import_appointment row d = Ok d' -> db_ok d -> db_ok d'.
Proof.
  unfold import_appointment. intros H. invert_bind H.
  unfold Sql.insert_appointment in H.
  match type of H with
  | match ?x with _ => _ end = _ => destruct x; [|discriminate H]
  end.
  injection H as <-. intros [Hc Ha]. split; [exact Hc|].
  cbn [appointments appointments_seq]. now apply ids_ok_next.
Qed.

Lemma for_rows_db_ok (body : Csv.dict -> database -> result database)
  (rs : list Csv.dict) :
  (forall r d d', body r d = Ok d' -> db_ok d -> db_ok d') ->
  forall d d', for_rows body rs d = Ok d' -> db_ok d -> db_ok d'.
Proof.
  intros Hbody. induction rs as [|r rs IH]; intros d d' H Hd; cbn [for_rows] in H.
  - now injection H as <-.
  - invert_bind H. eapply IH; [exact H|]. eapply Hbody; eassumption.
Qed.

Lemma import_db_db_ok (fn fa : string) (fs : files) (d d' : database) :
  import_db fn fa fs d = Ok d' -> db_ok d -> db_ok d'.
Proof.
  unfold import_db. intros H [(_ & _ & Hc) (_ & _ & Ha)]. invert_bind H.
  eapply (for_rows_db_ok import_appointment); [apply import_appointment_db_ok|exact H|].
  eapply (for_rows_db_ok import_client); [apply import_client_db_ok|eassumption|].
  split; cbn; now apply ids_ok_nil.
Qed.

(** X1.  Every handler that returns leaves rowids distinct, in order and below
    the AUTOINCREMENT counters, and leaves on screen the table of the
    database it wrote. *)
Theorem handlers_keep_state_ok (st : state) :
  state_ok st ->
  (forall today st' m, save_client today st = Ok (st', m) -> state_ok st')
  /\ (forall st' m, update_selected st = Ok (st', m) -> state_ok st')
  /\ (forall today yes, state_ok (fst (remove_selected today yes st)))
  /\ (forall fn yes fs st' m,
        import_csv fn yes fs st = Ok (st', m) -> state_ok st')
  /\ (forall i, state_ok (table_double_clicked i st)).
Proof.
  intros [Hdb Hrows].
  assert (state_ok st) as Hst by now split.
  split; [|split; [|split; [|split]]].
  - intros today st' m H. unfold save_client in H.
    destruct (String.eqb (Py.strip (ed_name (frm st))) "").
    + injection H as <- _. exact Hst.
    + invert_bind H. cbn [Sql.insert_client] in H. injection H as <- _.
      split; [|reflexivity].
      cbn [load_table db]. apply insert_scheduled_all_db_ok.
      destruct Hdb as [Hc Ha]. split; [|exact Ha].
      cbn [clients clients_seq]. now apply ids_ok_next.
  - intros st' m H. unfold update_selected in H.
    destruct (current_selected_client_id st) as [cid|];
      [|injection H as <- _; exact Hst].
    destruct (cid =? 0); [injection H as <- _; exact Hst|].
    invert_bind H. injection H as <- _.
    split; [|reflexivity]. cbn [load_table db]. now apply update_db_db_ok.
  - intros today yes. unfold remove_selected.
    destruct (current_selected_client_id st) as [cid|]; [|exact Hst].
    destruct (cid =? 0); [exact Hst|].
    destruct yes; cbn [negb fst]; [|exact Hst].
    split; [|reflexivity]. cbn [load_table db]. now apply remove_db_ok.
  - intros fn yes fs st' m H. unfold import_csv in H.
    destruct (String.eqb fn ""); [injection H as <- _; exact Hst|].
    destruct (exists_file (companion fn) fs); cbn [negb] in H;
      [|injection H as <- _; exact Hst].
    destruct yes; cbn [negb] in H; [|injection H as <- _; exact Hst].
    invert_bind H. injection H as <- _.
    split; [|reflexivity]. cbn [load_table db].
    eapply import_db_db_ok; eassumption.
  - intros i. unfold table_double_clicked.
    destruct (get_row (rows st) i); [|exact Hst]. now split.
Qed.

Lemma two_state_ok : state_ok Ex.two_state.
Proof.
  split; [|reflexivity]. split; cbn [db Ex.two_state Ex.two_db clients
    appointments clients_seq appointments_seq];
    (split; [repeat constructor|split; [repeat constructor; cbn; lia|lia]]).
Qed.

Lemma handlers_keep_state_ok_witness :
  state_ok Ex.two_state
  /\ state_ok (fst (remove_selected Ex.today true Ex.two_state))
  /\ map c_id (clients (db (fst (remove_selected Ex.today true Ex.two_state))))
     = [2].
Proof.
  split; [exact two_state_ok|].
  split; [|reflexivity].
  apply (handlers_keep_state_ok Ex.two_state two_state_ok).
Defined.

(** ** Selection and lookups *)

Lemma selected_is_client (st : state) (cid : Z) :
  rows st = load (db st) ->
  current_selected_client_id st = Some cid ->
  exists c, In c (clients (db st)) /\ c_id c = cid.
Proof.
  intros Hrows Hsel.
  destruct (selected_in_rows st cid Hsel) as (i & r & _ & Hr & Hid).
  apply nth_error_In in Hr. rewrite Hrows in Hr. unfold load in Hr.
  apply in_map_iff in Hr as (c & <- & Hc). apply order_by_In in Hc.
  exists c. split; [exact Hc|exact Hid].
Qed.

Lemma filter_out_one (cid : Z) (l : list client) :
  StronglySorted (fun a b => c_id a < c_id b) l ->
  (exists c, In c l /\ c_id c = cid) ->
  S (List.length (filter (fun c => negb (c_id c =? cid)) l)) = List.length l.
Proof.
  induction 1 as [|x l Hs IH Hx]; intros (c & Hin & Hc); [destruct Hin|].
  cbn [filter List.length].
  destruct (Z.eqb_spec (c_id x) cid) as [E|E]; cbn [negb List.length].
  - f_equal. clear IH Hin. rewrite Forall_forall in Hx.
    induction l as [|y l IHl]; [reflexivity|]. cbn [filter].
    replace (c_id y =? cid) with false
      by (symmetry; apply Z.eqb_neq; specialize (Hx y (or_introl eq_refl)); lia).
    cbn [negb List.length]. f_equal. apply IHl.
    + now inversion Hs.
    + intros z Hz. apply Hx. now right.
  - f_equal. apply IH. destruct Hin as [-> | Hin]; [contradiction|].
    exists c. auto.
Qed.

Lemma filter_other_In {A} (id : A -> Z) (cid : Z) (l : list A) (x : A) :
  In x (filter (fun r => negb (id r =? cid)) l) <-> In x l /\ id x <> cid.
Proof.
  rewrite filter_In, negb_true_iff, Z.eqb_neq. reflexivity.
Qed.

(** X4.  Remove, once confirmed, deletes the selected client's row and every
    appointment of that client, whatever its status, and nothing else;
    exactly one client row goes.  Declining leaves everything as it was. *)
Theorem remove_selected_removes_client (today : date) (st : state) (cid : Z) :
  state_ok st ->
  current_selected_client_id st = Some cid ->
  cid <> 0 ->
  (forall c, In c (clients (db (fst (remove_selected today true st))))
             <-> In c (clients (db st)) /\ c_id c <> cid)
  /\ (forall a, In a (appointments (db (fst (remove_selected today true st))))
                <-> In a (appointments (db st)) /\ a_client_id a <> cid)
  /\ S (List.length (clients (db (fst (remove_selected today true st)))))
     = List.length (clients (db st))
  /\ clients_seq (db (fst (remove_selected today true st))) = clients_seq (db st)
  /\ frm (fst (remove_selected today true st)) = clear_form today (frm st)
  /\ remove_selected today false st = (st, None).
Proof.
  intros [[(Hs & _) _] Hrows] Hsel Hcid.
  unfold remove_selected. rewrite Hsel.
  destruct (Z.eqb_spec cid 0); [contradiction|]. cbn [negb fst load_table db frm].
  cbn [Sql.delete_client Sql.delete_appointments_of clients appointments
       clients_seq].
  split; [intros c; apply filter_other_In|].
  split; [intros a; apply filter_other_In|].
  split; [|auto].
  apply filter_out_one; [exact Hs|]. now apply selected_is_client.
Qed.

Lemma remove_selected_removes_client_witness :
  map c_id (clients (db (fst (remove_selected Ex.today true Ex.two_state)))) = [2]
  /\ map a_id (appointments (db (fst (remove_selected Ex.today true Ex.two_state))))
     = [3].
Proof.
  destruct (remove_selected_removes_client Ex.today Ex.two_state 1 two_state_ok
              eq_refl) as (_ & _ & _); [discriminate|].
  split; reflexivity.
Defined.

(** ** Saving *)



(** X5.  An id is never given out again: after the selected client is removed,
    no row carries its id, and the next save, whatever the form holds, does
    not bring the id back. *)
Theorem removed_id_never_reused (today : date) (st : state) (cid : Z) :
  state_ok st ->
  current_selected_client_id st = Some cid ->
  cid <> 0 ->
  (forall c, In c (clients (db (fst (remove_selected today true st)))) ->
             c_id c <> cid)
  /\ forall f today' st2 m,
       save_client today'
         (mkState (db (fst (remove_selected today true st)))
                  (rows (fst (remove_selected today true st)))
                  (current (fst (remove_selected today true st))) f)
       = Ok (st2, m) ->
       forall c, In c (clients (db st2)) -> c_id c <> cid.
Proof.
  intros Hst Hsel Hcid.
  destruct (selected_is_client st cid (proj2 Hst) Hsel) as (c0 & Hc0 & Hid0).
  destruct Hst as [[(_ & Hb & _) _] _].
  assert (cid <= clients_seq (db st)) as Hle.
  { rewrite Forall_forall in Hb. specialize (Hb c0 Hc0). cbv beta in Hb. lia. }
  unfold remove_selected. rewrite Hsel.
  destruct (Z.eqb_spec cid 0); [contradiction|].
  cbn [negb fst load_table db rows current].
  cbn [Sql.delete_client Sql.delete_appointments_of clients].
  split.
  - intros c Hc. now apply filter_other_In in Hc.
  - intros f today' st2 m H c Hc. unfold save_client in H. cbn [frm db] in H.
    destruct (String.eqb (Py.strip (ed_name f)) "").
    + injection H as <- _. cbn [db clients] in Hc.
      now apply filter_other_In in Hc.
    + invert_bind H. cbn [Sql.insert_client] in H. injection H as <- _.
      cbn [load_table db] in Hc.
      rewrite (proj1 (insert_scheduled_all_spec _ _ _)) in Hc.
      cbn [clients clients_seq] in Hc.
      apply in_app_or in Hc as [Hc | [<- | []]].
      * now apply filter_other_In in Hc.
      * cbn [c_id]. unfold Sql.next_id.
        match goal with
        | |- Z.max _ (Sql.max_id c_id ?l) + 1 <> _ =>
            pose proof (max_id_nonneg c_id l)
        end. lia.
Qed.

Lemma removed_id_never_reused_witness :
  current_selected_client_id
    (mkState Ex.two_db (load Ex.two_db) (Some 1%nat) Ex.blank) = Some 2
  /\ forall st2 m,
       save_client Ex.today
         (mkState (db (fst (remove_selected Ex.today true
                              (mkState Ex.two_db (load Ex.two_db) (Some 1%nat)
                                       Ex.blank))))
                  (rows (fst (remove_selected Ex.today true
                                (mkState Ex.two_db (load Ex.two_db) (Some 1%nat)
                                         Ex.blank))))
                  (current (fst (remove_selected Ex.today true
                                   (mkState Ex.two_db (load Ex.two_db)
                                            (Some 1%nat) Ex.blank))))
                  Ex.ana)
       = Ok (st2, m) ->
       forall c, In c (clients (db st2)) -> c_id c <> 2.
Proof.
  split; [reflexivity|].
  assert (state_ok (mkState Ex.two_db (load Ex.two_db) (Some 1%nat) Ex.blank))
    as Hok by (split; [apply two_state_ok|reflexivity]).
  destruct (removed_id_never_reused Ex.today _ 2 Hok eq_refl) as [_ H];
    [discriminate|].
  exact (H Ex.ana Ex.today).
Defined.

(** ** Updating *)




(** ** Dates as text *)

(** X6.  The text [qdate_to_str] writes for a valid date reads back through
    [str_to_qdate] as the same date when the year is positive; a date
    before year 1 is written with a leading minus sign and reads back as
    the invalid date.  The invalid date is written as empty text, which
    reads back invalid. *)
Theorem qdate_text_round_trip (x : date) :
  Q.valid (year x) (month x) (day x) = true ->
  str_to_qdate (qdate_to_str (Some x)) = (if 0 <? year x then Some x else None)
  /\ str_to_qdate (qdate_to_str None) = None.
Proof.
  intros Hv. split; [|reflexivity].
  destruct (0 <? year x) eqn:Ey.
  - apply Z.ltb_lt in Ey. now apply str_to_qdate_iso.
  - apply Z.ltb_ge in Ey.
    assert (year x < 0 /\ 1 <= month x /\ 1 <= day x) as (Hy & Hm & Hd).
    { unfold Q.valid in Hv.
      rewrite !andb_true_iff, !Z.leb_le, negb_true_iff, Z.eqb_neq in Hv. lia. }
    cbn [qdate_to_str]. unfold Q.toString_iso, str_to_qdate, unpack_ymd.
    replace (year x <? 0) with true by (symmetry; apply Z.ltb_lt; lia).
    destruct (str_nat_value (Z.abs (year x))) as (Ay & Ny & _); [lia|].
    destruct (str_nat_value (month x)) as (Am & Nm & _); [lia|].
    destruct (str_nat_value (day x)) as (Ad & Nd & _); [lia|].
    destruct (zfill_value 4 _ Ay Ny) as (Ay' & _ & _).
    destruct (zfill_value 2 _ Am Nm) as (Am' & _ & _).
    destruct (zfill_value 2 _ Ad Nd) as (Ad' & _ & _).
    cbn [append Py.split]. change (Ascii.eqb "-" "-") with true. cbv iota.
    rewrite (split_app "-" _ _ (digits_no_dash _ Ay')).
    rewrite (split_app "-" _ _ (digits_no_dash _ Am')).
    rewrite (split_no_sep "-" _ (digits_no_dash _ Ad')).
    reflexivity.
Qed.

Lemma qdate_text_round_trip_witness :
  str_to_qdate (qdate_to_str (Some (mkDate 2024 2 29))) = Some (mkDate 2024 2 29)
  /\ str_to_qdate (qdate_to_str (Some (mkDate (-44) 3 15))) = None.
Proof.
  split.
  - apply (qdate_text_round_trip (mkDate 2024 2 29)). reflexivity.
  - apply (qdate_text_round_trip (mkDate (-44) 3 15)). reflexivity.
Defined.

(** ** The table model *)

(** X9.  The table has one row per client, each client once; [get_row] answers
    [None] exactly for a row number at or beyond [rowCount]; there are nine
    columns. *)
Theorem table_shows_every_client (d : database) :
  Permutation (load d) (map to_row (clients d))
  /\ rowCount (load d) = List.length (clients d)
  /\ (forall i, get_row (load d) i = None <-> (rowCount (load d) <= i)%nat)
  /\ (forall i, (i < rowCount (load d))%nat ->
        exists c, In c (clients d) /\ get_row (load d) i = Some (to_row c))
  /\ columnCount = 9%nat.
Proof.
  assert (Permutation (load d) (map to_row (clients d))) as Hp
    by (unfold load; apply Permutation_map, order_by_perm).
  split; [exact Hp|]. split; [|split; [|split; [|reflexivity]]].
  - unfold rowCount. rewrite (Permutation_length Hp). apply length_map.
  - intros i. apply nth_error_None.
  - intros i Hi. unfold get_row.
    destruct (nth_error (load d) i) as [r|] eqn:E;
      [|apply nth_error_None in E; unfold rowCount in Hi; lia].
    pose proof (nth_error_In _ _ E) as Hin.
    apply (Permutation_in _ Hp), in_map_iff in Hin as (c & <- & Hc).
    exists c. auto.
Qed.

(** ** The digest text *)









(** ** Sending the digest *)

(** X12.  The automatic send hands over exactly what the manual send hands
    over and never shows a dialog, while the manual send always shows one;
    both raise only when composing the digest raises.  A message is handed
    over only to the owner number, only when that number starts with "+",
    and it is the composed digest. *)
Theorem send_auto_matches_manual
  (kit : option channel) (owner : string) (today : date) (d : database) :
  match send_week_whatsapp kit owner today d,
        send_week_whatsapp_auto kit owner today d with
  | Ok (sent, dlg), Ok (sent', dlg') =>
      sent' = sent /\ dlg' = None /\ dlg <> None
      /\ (forall phone msg,
            sent = Some (phone, msg) ->
            phone = owner /\ prefix "+" owner = true
            /\ compose_week_message today d = Ok msg
            /\ dlg = Some (Information "WhatsApp"
                             "Mensagem enviada para seu WhatsApp."))
  | Raise e, Raise e' => e = e' /\ compose_week_message today d = Raise e
  | _, _ => False
  end.
Proof.
  unfold send_week_whatsapp, send_week_whatsapp_auto.
  destruct kit as [send|];
    [|split; [|split; [|split]]; [reflexivity| reflexivity| |]; discriminate].
  destruct (prefix "+" owner) eqn:Ep; cbn [negb];
    [|split; [|split; [|split]]; [reflexivity| reflexivity| |]; discriminate].
  destruct (compose_week_message today d) as [msg|e]; cbn [bind]; [|auto].
  destruct (send owner msg);
    (split; [|split; [|split]]; [reflexivity| reflexivity| discriminate|]).
  - discriminate.
  - intros phone m H; injection H as <- <-; auto.
Qed.

(** ** Export under a name without ".csv" *)

Lemma replace_fuel_absent (old new : string) (fuel : nat) :
  forall s, occurs old s = false -> Py.replace_fuel fuel old new s = s.
Proof.
  induction fuel as [|f IH]; intros s H; [reflexivity|].
  destruct s as [|c s]; [reflexivity|].
  cbn [occurs] in H. apply orb_false_iff in H as [Hp Hs].
  cbn [Py.replace_fuel]. rewrite Hp, (IH s Hs). reflexivity.
Qed.

Lemma header_only_appointments :
  Csv.dict_reader (Csv.writerow (map PStr APPOINTMENT_COLUMNS) ++ Csv.writerows [])
  = Ok [].
Proof. reflexivity. Qed.

(** X15.  When ".csv" does not occur in the chosen name, the companion name is
    the name itself: the export writes the appointment text over the client
    text it has just written.  Importing that file then fails with
    [KeyError] (no "id" column) when there is an appointment, and when there
    is none it succeeds and leaves both tables empty. *)
Theorem export_without_csv_in_name
  (fn : string) (fs : files) (d : database) (st : state) :
  fn <> "" ->
  occurs ".csv" fn = false ->
  companion fn = fn
  /\ read_file fn (fst (export_csv fn fs d)) = Some (appointments_csv d)
  /\ (appointments d = [] ->
      exists st',
        import_csv fn true (fst (export_csv fn fs d)) st
        = Ok (st', Some (Information "CSV" "Importação concluída."))
        /\ clients (db st') = [] /\ appointments (db st') = [])
  /\ (appointments d <> [] -> Forall appointment_ok (appointments d) ->
      import_csv fn true (fst (export_csv fn fs d)) st = Raise KeyError).
Proof.
  intros Hfn Hocc.
  assert (companion fn = fn) as Hc
    by (unfold companion, Py.replace; now apply replace_fuel_absent).
  assert (read_file fn (fst (export_csv fn fs d)) = Some (appointments_csv d))
    as Hread.
  { unfold export_csv. destruct (String.eqb_spec fn ""); [contradiction|].
    cbn [fst]. rewrite Hc. apply read_write_same. }
  split; [exact Hc|]. split; [exact Hread|].
  assert (forall r,
            import_db fn fn (fst (export_csv fn fs d)) (db st) = r ->
            import_csv fn true (fst (export_csv fn fs d)) st
            = (d' <- r ;;
               Ok (load_table (mkState d' (rows st) (current st) (frm st)),
                   Some (Information "CSV" "Importação concluída.")))) as Himp.
  { intros r <-. unfold import_csv.
    destruct (String.eqb_spec fn ""); [contradiction|].
    rewrite Hc. unfold exists_file. rewrite Hread. reflexivity. }
  split.
  - intros Ha. eexists. split.
    + rewrite (Himp (Ok (Sql.delete_all (db st)))); [reflexivity|].
      unfold import_db, open_read. rewrite Hread. cbn [bind].
      unfold appointments_csv. rewrite Ha. cbn [map].
      rewrite header_only_appointments. cbn [bind for_rows]. reflexivity.
    + cbn [load_table db Sql.delete_all clients appointments]. auto.
  - intros Hne Hok. rewrite (Himp (Raise KeyError)); [reflexivity|].
    unfold import_db, open_read. rewrite Hread. cbn [bind].
    rewrite (dict_reader_appointments d Hok). cbn [bind].
    destruct (appointments d) as [|a l]; [congruence|].
    cbn [map for_rows]. destruct a as [k cid dt kd stt]. reflexivity.
Qed.

Lemma export_without_csv_in_name_witness :
  read_file "clientes" (fst (export_csv "clientes" [] Ex.lia_db))
  = Some (appointments_csv Ex.lia_db)
  /\ exists st',
       import_csv "clientes" true (fst (export_csv "clientes" [] Ex.lia_db))
         (mkState Ex.lia_db (load Ex.lia_db) None Ex.blank)
       = Ok (st', Some (Information "CSV" "Importação concluída."))
       /\ clients (db st') = [].
Proof.
  destruct (export_without_csv_in_name "clientes" [] Ex.lia_db
              (mkState Ex.lia_db (load Ex.lia_db) None Ex.blank))
    as (_ & H1 & H2 & _); [discriminate | reflexivity |].
  split; [exact H1|].
  destruct (H2 eq_refl) as (st' & H & Hc & _). eauto.
Defined.

(** ** What the outputs read of an appointment *)

Lemma filter_by_fields {B} (g : Z * string * option string * option string -> B)
  (p : Z * string * option string * option string -> bool) :
  forall l l' : list appointment,
    map appointment_fields l = map appointment_fields l' ->
    map (fun a => g (appointment_fields a))
        (filter (fun a => p (appointment_fields a)) l)
    = map (fun a => g (appointment_fields a))
        (filter (fun a => p (appointment_fields a)) l').
Proof.
  induction l as [|a l IH]; intros [|a' l'] H; try discriminate; [reflexivity|].
  cbn [map] in H.
  pose proof (f_equal (hd (appointment_fields a)) H) as Ha.
  pose proof (f_equal (@tl _) H) as Hl. cbn [hd tl] in Ha, Hl.
  cbn [filter]. rewrite Ha.
  destruct (p (appointment_fields a')); cbn [map]; rewrite ?Ha;
    now rewrite (IH l' Hl).
Qed.

Lemma scheduled_dates_fields (d d' : database) (cid : Z) :
  map appointment_fields (appointments d)
  = map appointment_fields (appointments d') ->
  Sql.scheduled_dates cid d = Sql.scheduled_dates cid d'.
Proof.
  intros H. unfold Sql.scheduled_dates. f_equal.
  exact (filter_by_fields
           (fun t => snd (fst (fst t)))
           (fun t => (fst (fst (fst t)) =? cid)
                     && match snd t with
                        | Some s => String.eqb s AGENDADO
                        | None => false
                        end) _ _ H).
Qed.

Lemma appointments_csv_fields (d d' : database) :
  map appointment_fields (appointments d)
  = map appointment_fields (appointments d') ->
  appointments_csv d = appointments_csv d'.
Proof.
  intros H. unfold appointments_csv. do 2 f_equal.
  pose proof (filter_by_fields
                (fun t => [ PInt (fst (fst (fst t))); PStr (snd (fst (fst t)));
                            of_text (snd (fst t)); of_text (snd t) ])
                (fun _ => true) _ _ H) as E.
  assert (forall l : list appointment, filter (fun _ => true) l = l) as Hf
    by (induction l as [|x l IHl]; cbn [filter]; [|rewrite IHl]; reflexivity).
  rewrite !Hf in E. exact E.
Qed.

Lemma appointment_ok_fields :
  forall l l' : list appointment,
    map appointment_fields l = map appointment_fields l' ->
    Forall appointment_ok l -> Forall appointment_ok l'.
Proof.
  induction l as [|a l IH]; intros [|a' l'] H Hok; try discriminate;
    [constructor|].
  cbn [map] in H. injection H as E1 E2 E3 E4 Hl.
  inversion Hok as [|? ? Ha Hrest]; subst. constructor.
  - destruct a, a'. unfold appointment_ok in *.
    cbn [a_client_id a_date a_kind a_status] in *. now subst.
  - exact (IH l' Hl Hrest).
Qed.

Lemma clients_loop_dates (today limit : date) (d d' : database) :
  (forall cid, Sql.scheduled_dates cid d = Sql.scheduled_dates cid d') ->
  forall cs lines,
    clients_loop today limit d lines cs = clients_loop today limit d' lines cs.
Proof.
  intros H. induction cs as [|c cs IH]; intros lines; [reflexivity|].
  cbn [clients_loop]. unfold client_step. rewrite (H (c_id c)).
  destruct (week_loop today limit [] (Sql.scheduled_dates (c_id c) d'))
    as [[|x l]|e]; cbn [bind]; [apply IH | apply IH | reflexivity].
Qed.

Lemma outputs_by_fields (today : date) (d d' : database) :
  clients d = clients d' ->
  map appointment_fields (appointments d)
  = map appointment_fields (appointments d') ->
  compose_week_message today d = compose_week_message today d'
  /\ pdf_data d = pdf_data d'
  /\ load d = load d'
  /\ clients_csv d = clients_csv d'
  /\ appointments_csv d = appointments_csv d'.
Proof.
  intros Hc Hf.
  pose proof (fun cid => scheduled_dates_fields d d' cid Hf) as Hd.
  split; [|split; [|split; [|split]]].
  - unfold compose_week_message.
    destruct (Dt.add_days 7 today) as [limit|e]; cbn [bind]; [|reflexivity].
    unfold Sql.visible_clients_by_name. rewrite Hc.
    now rewrite (clients_loop_dates today limit d d' Hd).
  - unfold pdf_data, Sql.clients_by_hidden_name. rewrite Hc. f_equal.
    apply map_ext. intros c. unfold pdf_row, upcoming_text.
    now rewrite (Hd (c_id c)).
  - unfold load, Sql.clients_by_hidden_name. now rewrite Hc.
  - unfold clients_csv. now rewrite Hc.
  - now apply appointments_csv_fields.
Qed.

(** X13.  The ids of the appointments and the two AUTOINCREMENT counters are read
    by none of the outputs: two databases with the same [clients] and the
    same client_id, date, kind and status of their appointments, in the same
    order, give the same digest, the same PDF table, the same table rows and
    the same two CSV texts. *)
Theorem outputs_ignore_appointment_ids (today : date) (d d' : database) :
  clients d = clients d' ->
  map appointment_fields (appointments d)
  = map appointment_fields (appointments d') ->
  compose_week_message today d = compose_week_message today d'
  /\ pdf_data d = pdf_data d'
  /\ load d = load d'
  /\ clients_csv d = clients_csv d'
  /\ appointments_csv d = appointments_csv d'.
Proof.
  intros Hc Hf.
  assert (forall cid, Sql.scheduled_dates cid d = Sql.scheduled_dates cid d')
    as Hd by (intros cid; now apply scheduled_dates_fields).
  split; [|split; [|split; [|split]]].
  - unfold compose_week_message.
    destruct (Dt.add_days 7 today) as [limit|e]; cbn [bind]; [|reflexivity].
    unfold Sql.visible_clients_by_name. rewrite Hc.
    now rewrite (clients_loop_dates today limit d d' Hd).
  - unfold pdf_data, Sql.clients_by_hidden_name. rewrite Hc. f_equal.
    apply map_ext. intros c. unfold pdf_row, upcoming_text.
    now rewrite (Hd (c_id c)).
  - unfold load, Sql.clients_by_hidden_name. now rewrite Hc.
  - unfold clients_csv. now rewrite Hc.
  - now apply appointments_csv_fields.
Qed.

Lemma outputs_ignore_appointment_ids_witness :
  let d' := mkDb (clients Ex.week_db)
              (map (fun a => mkAppt (a_id a + 40) (a_client_id a) (a_date a)
                               (a_kind a) (a_status a))
                   (appointments Ex.week_db)) 7 99 in
  appointments d' <> appointments Ex.week_db
  /\ compose_week_message Ex.today Ex.week_db = compose_week_message Ex.today d'
  /\ pdf_data Ex.week_db = pdf_data d'.
Proof.
  intros d'. split; [discriminate|].
  destruct (outputs_ignore_appointment_ids Ex.today Ex.week_db d')
    as (H1 & H2 & _); [reflexivity | reflexivity |].
  split; [exact H1 | exact H2].
Defined.

(** X14.  Exporting a database whose rows are as the application writes them and
    importing the two files again, into any state, changes none of the
    outputs: the digest, the PDF table, the table rows and the text of both
    CSV files are those of the exported database, and the imported database
    can be exported and imported again in the same way. *)
Theorem export_import_keeps_outputs
  (fn : string) (fs : files) (today : date) (d : database) (st : state) :
  fn <> "" ->
  companion fn <> fn ->
  exportable d ->
  exists st',
    import_csv fn true (fst (export_csv fn fs d)) st
    = Ok (st', Some (Information "CSV" "Importação concluída."))
    /\ compose_week_message today (db st') = compose_week_message today d
    /\ pdf_data (db st') = pdf_data d
    /\ rows st' = load d
    /\ clients_csv (db st') = clients_csv d
    /\ appointments_csv (db st') = appointments_csv d
    /\ exportable (db st').
Proof.
  intros Hfn Hcomp (Hsorted & Hclients & Happts).
  unfold export_csv. destruct (String.eqb_spec fn ""); [contradiction|].
  cbn [fst]. unfold import_csv.
  destruct (String.eqb_spec fn ""); [contradiction|].
  rewrite exists_written. cbn [negb].
  unfold import_db, open_read.
  rewrite read_write_other by exact Hcomp.
  rewrite !read_write_same. cbn [bind].
  rewrite (dict_reader_clients d Hclients). cbn [bind].
  destruct (import_clients (clients d) (Sql.delete_all (db st)) Hclients Hsorted)
    as (seq & E); [intros x c []|].
  rewrite E. cbn [bind Sql.delete_all clients appointments appointments_seq app].
  rewrite (dict_reader_appointments d Happts). cbn [bind].
  match goal with
  | |- context [for_rows import_appointment _ ?d1] =>
      destruct (import_appointments (appointments d) d1 Happts)
        as (d' & E' & Hc & _ & Hf)
  end.
  rewrite E'. cbn [bind]. eexists. split; [reflexivity|].
  cbn [load_table db rows]. cbn [clients appointments map app] in Hc, Hf.
  destruct (outputs_by_fields today d' d Hc Hf) as (H1 & H2 & H3 & H4 & H5).
  split; [exact H1|]. split; [exact H2|]. split; [exact H3|].
  split; [exact H4|]. split; [exact H5|].
  unfold exportable. rewrite Hc. split; [exact Hsorted|].
  split; [exact Hclients|].
  exact (appointment_ok_fields _ _ (eq_sym Hf) Happts).
Qed.

Lemma export_import_keeps_outputs_witness :
  exists st',
    import_csv "clientes.csv" true
      (fst (export_csv "clientes.csv" [] Ex.week_db)) Ex.two_idle
    = Ok (st', Some (Information "CSV" "Importação concluída."))
    /\ compose_week_message Ex.today (db st')
       = compose_week_message Ex.today Ex.week_db
    /\ pdf_data (db st') = pdf_data Ex.week_db.
Proof.
  destruct (export_import_keeps_outputs "clientes.csv" [] Ex.today Ex.week_db
              Ex.two_idle)
    as (st' & H & H1 & H2 & _);
    [discriminate | discriminate | exact week_db_exportable |].
  exists st'. split; [exact H|]. split; [exact H1 | exact H2].
Defined.

(** ** The widgets of the form *)

Lemma setDate_ok (cur : date) (qd : Q.QDate) :
  Q.valid (year cur) (month cur) (day cur) = true ->
  Q.in_edit_range cur = true ->
  (forall x, qd = Some x -> Q.valid (year x) (month x) (day x) = true) ->
  Q.valid (year (Q.setDate cur qd)) (month (Q.setDate cur qd))
          (day (Q.setDate cur qd)) = true
  /\ Q.in_edit_range (Q.setDate cur qd) = true.
Proof.
  intros Hv Hr Hq. destruct qd as [x|]; cbn [Q.setDate]; [|auto].
  destruct (date_ltb x Q.DATE_MIN) eqn:A; [split; reflexivity|].
  destruct (date_ltb Q.DATE_MAX x) eqn:B; [split; reflexivity|].
  split; [now apply Hq|].
  unfold Q.in_edit_range. apply andb_true_iff.
  assert (date_ltb x Q.DATE_MIN <> true) as A' by congruence.
  assert (date_ltb Q.DATE_MAX x <> true) as B' by congruence.
  rewrite !date_leb_spec. rewrite !date_ltb_spec in *. lia.
Qed.

Lemma str_to_qdate_valid (s : string) (x : date) :
  str_to_qdate s = Some x -> Q.valid (year x) (month x) (day x) = true.
Proof.
  unfold str_to_qdate. destruct (unpack_ymd s) as [[[y m] d]|e]; [|discriminate].
  unfold Q.make. destruct (Q.valid y m d) eqn:E; [|discriminate].
  intros H. injection H as <-. exact E.
Qed.

Lemma setValue_bounds (lo hi v : Z) : lo <= hi -> lo <= Q.setValue lo hi v <= hi.
Proof. unfold Q.setValue. lia. Qed.

Lemma clear_form_ok (today : date) (f : form) :
  form_ok f -> Q.valid (year today) (month today) (day today) = true ->
  form_ok (clear_form today f).
Proof.
  intros (_ & _ & Hv & Hr) Ht. unfold form_ok, clear_form.
  cbn [ed_age sp_paid dt_first].
  split; [apply setValue_bounds; lia|]. split; [apply setValue_bounds; lia|].
  apply setDate_ok; [exact Hv | exact Hr |].
  intros x E. injection E as <-. exact Ht.
Qed.

Lemma fill_form_ok (cid : Z) (d : database) (f : form) :
  form_ok f -> form_ok (fill_form_from_db cid d f).
Proof.
  intros Hf. unfold fill_form_from_db.
  destruct (Sql.client_by_id cid d) as [row|]; [|exact Hf].
  destruct Hf as (_ & _ & Hv & Hr). unfold form_ok.
  cbn [ed_age sp_paid dt_first].
  split; [apply setValue_bounds; lia|]. split; [apply setValue_bounds; lia|].
  apply setDate_ok; [exact Hv | exact Hr |].
  intros x. apply str_to_qdate_valid.
Qed.

(** X7.  The age and paid-returns spin boxes and the first-consult date edit
    stay within their ranges whatever the handlers load into them: from a
    form with age in 0..120, paid returns in 0..12 and a valid first-consult
    date between 1752-09-14 and 9999-12-31, every handler leaves such a
    form, whatever the database holds. *)
Theorem form_stays_in_range (today : date) (st : state) :
  form_ok (frm st) ->
  Q.valid (year today) (month today) (day today) = true ->
  (forall row, form_ok (frm (table_double_clicked row st)))
  /\ (forall cid d, form_ok (fill_form_from_db cid d (frm st)))
  /\ form_ok (add_next_date (frm st))
  /\ form_ok (clear_form today (frm st))
  /\ (forall st' dlg, save_client today st = Ok (st', dlg) -> form_ok (frm st'))
  /\ (forall st' dlg, update_selected st = Ok (st', dlg) -> form_ok (frm st'))
  /\ (forall yes, form_ok (frm (fst (remove_selected today yes st)))).
Proof.
  intros Hf Ht.
  pose proof (clear_form_ok today (frm st) Hf Ht) as Hclear.
  split; [|split; [|split; [|split; [|split; [|split]]]]].
  - intros row. unfold table_double_clicked.
    destruct (get_row (rows st) row); [|exact Hf].
    cbn [frm]. now apply fill_form_ok.
  - intros cid d. now apply fill_form_ok.
  - exact Hf.
  - exact Hclear.
  - intros st' dlg. unfold save_client.
    destruct (String.eqb (Py.strip (ed_name (frm st))) "").
    + intros H. injection H as <- _. exact Hf.
    + destruct (Py.int (currentText (cb_plan (frm st)))); cbn [bind];
        [|discriminate].
      intros H. injection H as <- _. exact Hclear.
  - intros st' dlg. unfold update_selected.
    destruct (current_selected_client_id st) as [cid|].
    + destruct (cid =? 0).
      * intros H. injection H as <- _. exact Hf.
      * destruct (Py.int (currentText (cb_plan (frm st)))); cbn [bind];
          [|discriminate].
        intros H. injection H as <- _. exact Hf.
    + intros H. injection H as <- _. exact Hf.
  - intros yes. unfold remove_selected.
    destruct (current_selected_client_id st) as [cid|]; [|exact Hf].
    destruct (cid =? 0); [exact Hf|].
    destruct yes; cbn [negb fst frm load_table]; [exact Hclear | exact Hf].
Qed.

Lemma form_stays_in_range_witness :
  form_ok (frm (table_double_clicked 0 Ex.two_state))
  /\ form_ok (clear_form Ex.today (frm Ex.two_state)).
Proof.
  assert (form_ok (frm Ex.two_state)) as Hf.
  { unfold form_ok. vm_compute. repeat split; discriminate. }
  destruct (form_stays_in_range Ex.today Ex.two_state Hf eq_refl)
    as (H1 & _ & _ & H4 & _).
  split; [exact (H1 0%nat) | exact H4].
Defined.

(** ** Importing a client file in any order *)

Lemma has_id_place {A} (id : A -> Z) (r : A) (k : Z) (l : list A) :
  Sql.has_id id k (Sql.place id r l) = (id r =? k) || Sql.has_id id k l.
Proof.
  unfold Sql.has_id. induction l as [|x l IH]; cbn [Sql.place existsb].
  - reflexivity.
  - destruct (id r <? id x); cbn [existsb]; [reflexivity|].
    rewrite IH. destruct (id r =? k), (id x =? k); reflexivity.
Qed.

Lemma place_perm {A} (id : A -> Z) (r : A) (l : list A) :
  Permutation (Sql.place id r l) (l ++ [r]).
Proof.
  induction l as [|x l IH]; cbn [Sql.place app]; [reflexivity|].
  destruct (id r <? id x).
  - change (x :: l ++ [r])%list with ((x :: l) ++ [r])%list.
    apply Permutation_cons_append.
  - now constructor.
Qed.

Lemma place_sorted {A} (id : A -> Z) (r : A) (l : list A) :
  StronglySorted (fun a b => id a < id b) l ->
  Sql.has_id id (id r) l = false ->
  StronglySorted (fun a b => id a < id b) (Sql.place id r l).
Proof.
  intros Hs Hnew.
  refine (proj1 (ids_ok_place id r l (Sql.max_id id l) _ Hnew)).
  split; [exact Hs|]. split; [|apply max_id_nonneg].
  apply Forall_forall. intros x. apply max_id_bound.
Qed.

(** Importing the dict of a client row places that row by its id, unless
    the id is taken. *)
Lemma import_client_row_any (c : client) (d : database) :
  client_ok c ->
  import_client (client_dict c) d
  = if Sql.has_id c_id (c_id c) (clients d) then Raise IntegrityError
    else Ok (mkDb (Sql.place c_id c (clients d)) (appointments d)
                  (Z.max (clients_seq d) (c_id c)) (appointments_seq d)).
Proof.
  destruct c as [k nm age wh fc pl pd rs nt hd].
  unfold client_ok. cbn [c_id c_name c_age c_whatsapp c_first_consult
    c_plan_months c_paid_returns c_rescheduled c_notes c_hidden].
  intros (_ & _ & _ & Hwh & Hfc & Hpl & Hpd & Hrs & Hnt & Hhd).
  destruct wh as [wh|], pl as [pl|], pd as [pd|], rs as [rs|], nt as [nt|],
    hd as [hd|]; try contradiction.
  assert (fc <> Some "") as Hfc'
    by (intros ->; cbn [opt_ok] in Hfc; now destruct Hfc).
  unfold client_dict.
  destruct age as [a|], fc as [[|f0 fs]|]; try congruence;
    cbn [client_values map Csv.text_of of_int of_text c_id c_name c_age
         c_whatsapp c_first_consult c_plan_months c_paid_returns c_rescheduled
         c_notes c_hidden];
    match goal with
    | |- context [Csv.zip_row CLIENT_COLUMNS
                    [?x0; ?x1; ?x2; ?x3; ?x4; ?x5; ?x6; ?x7; ?x8; ?x9]] =>
        destruct (client_dict_get x0 x1 x2 x3 x4 x5 x6 x7 x8 x9)
          as (G0 & G1 & G2 & G3 & G4 & G5 & G6 & G7 & G8 & G9)
    end;
    unfold import_client;
    rewrite G0, G1, G2, G3, G4, G5, G6, G7, G8, G9; cbn [bind];
    rewrite ?cell_true_str, ?int_of_cell_str, ?int_of_cell_or_str;
    cbn [bind cell_true];
    rewrite ?int_of_cell_or_str; cbn [bind];
    unfold Sql.insert_client_with_id; reflexivity.
Qed.

Lemma forallb_pointwise {A} (f g : A -> bool) (l : list A) :
  (forall x, f x = g x) -> forallb f l = forallb g l.
Proof.
  intros H. induction l as [|x l IH]; cbn [forallb]; [reflexivity|].
  now rewrite H, IH.
Qed.

Lemma forallb_not_taken (k : Z) (h : client -> bool) (cs : list client) :
  forallb (fun c => negb ((k =? c_id c) || h c)) cs
  = negb (existsb (Z.eqb k) (map c_id cs)) && forallb (fun c => negb (h c)) cs.
Proof.
  induction cs as [|c cs IH]; cbn [forallb existsb map]; [reflexivity|].
  rewrite IH.
  destruct (k =? c_id c), (h c), (existsb (Z.eqb k) (map c_id cs));
    reflexivity.
Qed.

Lemma import_clients_any (cs : list client) :
  forall d,
    Forall client_ok cs ->
    if ids_distinct (map c_id cs)
       && forallb (fun c => negb (Sql.has_id c_id (c_id c) (clients d))) cs
    then exists d',
           for_rows import_client (map client_dict cs) d = Ok d'
           /\ Permutation (clients d') (clients d ++ cs)
           /\ (StronglySorted (fun a b => c_id a < c_id b) (clients d) ->
               StronglySorted (fun a b => c_id a < c_id b) (clients d'))
           /\ appointments d' = appointments d
           /\ appointments_seq d' = appointments_seq d
    else for_rows import_client (map client_dict cs) d = Raise IntegrityError.
Proof.
  induction cs as [|c cs IH]; intros d Hok; cbn [map for_rows ids_distinct forallb].
  - exists d. rewrite app_nil_r. auto.
  - inversion Hok as [|? ? Hc Hcs]; subst.
    rewrite (import_client_row_any c d Hc).
    destruct (Sql.has_id c_id (c_id c) (clients d)) eqn:Hnew; cbn [negb andb bind].
    + now rewrite andb_false_r.
    + specialize (IH (mkDb (Sql.place c_id c (clients d)) (appointments d)
                           (Z.max (clients_seq d) (c_id c)) (appointments_seq d))
                     Hcs).
      cbn [clients appointments appointments_seq] in IH.
      rewrite (forallb_pointwise _ _ cs
                 (fun x => f_equal negb (has_id_place c_id c (c_id x) (clients d))))
        in IH.
      rewrite forallb_not_taken in IH.
      destruct (existsb (Z.eqb (c_id c)) (map c_id cs)); cbn [negb andb] in *.
      * now rewrite andb_false_r in IH.
      * destruct (ids_distinct (map c_id cs)
                  && forallb (fun c0 => negb (Sql.has_id c_id (c_id c0) (clients d)))
                       cs); [|exact IH].
        destruct IH as (d' & E & Hp & Hs & Ha & Hq).
        exists d'. split; [exact E|]. split; [|split; [|split]].
        -- rewrite Hp, (place_perm c_id c (clients d)), <- app_assoc.
           reflexivity.
        -- intros Hd. apply Hs. now apply place_sorted.
        -- exact Ha.
        -- exact Hq.
Qed.

(** X16.  A client file of well-formed rows, in whatever order, is imported when
    no id occurs twice in it: the [clients] table then holds exactly those
    rows, in id order, and the appointments of the companion file in file
    order.  When an id occurs twice the import raises [IntegrityError]. *)
Theorem import_csv_any_order
  (fn : string) (fs : files) (cs : list client) (l : list appointment)
  (st : state) :
  fn <> "" ->
  Forall client_ok cs ->
  Forall appointment_ok l ->
  read_file fn fs = Some (clients_csv (mkDb cs [] 0 0)) ->
  read_file (companion fn) fs = Some (appointments_csv (mkDb [] l 0 0)) ->
  if ids_distinct (map c_id cs)
  then exists st',
         import_csv fn true fs st
         = Ok (st', Some (Information "CSV" "Importação concluída."))
         /\ Permutation (clients (db st')) cs
         /\ StronglySorted (fun a b => c_id a < c_id b) (clients (db st'))
         /\ map appointment_fields (appointments (db st'))
            = map appointment_fields l
         /\ rows st' = load (db st')
  else import_csv fn true fs st = Raise IntegrityError.
Proof.
  intros Hfn Hcs Hl Hrc Hra.
  unfold import_csv. destruct (String.eqb_spec fn ""); [contradiction|].
  unfold exists_file. rewrite Hra. cbn [negb].
  unfold import_db, open_read. rewrite Hrc, Hra. cbn [bind].
  rewrite (dict_reader_clients (mkDb cs [] 0 0) Hcs). cbn [bind clients].
  pose proof (import_clients_any cs (Sql.delete_all (db st)) Hcs) as H.
  cbn [Sql.delete_all clients appointments appointments_seq app] in H.
  replace (forallb (fun c => negb (Sql.has_id c_id (c_id c) [])) cs)
    with true in H
    by (clear; induction cs as [|c cs IH]; cbn [forallb]; auto).
  rewrite andb_true_r in H.
  destruct (ids_distinct (map c_id cs)).
  - destruct H as (d1 & E & Hp & Hs & Ha & Hq).
    rewrite E. cbn [bind].
    rewrite (dict_reader_appointments (mkDb [] l 0 0) Hl). cbn [bind appointments].
    destruct (import_appointments l d1 Hl) as (d' & E' & Hc & _ & Hf).
    rewrite E'. cbn [bind]. eexists. split; [reflexivity|].
    cbn [load_table db rows]. rewrite Hc, Hf, Ha. cbn [map app].
    split; [exact Hp|]. split; [apply Hs; constructor|]. auto.
  - rewrite H. reflexivity.
Qed.

Lemma import_csv_any_order_witness :
  let fs := [ ("c.csv", clients_csv (mkDb [Ex.caio; Ex.bea] [] 0 0));
              ("c_consultas.csv",
               appointments_csv (mkDb [] (appointments Ex.week_db) 0 0)) ] in
  exists st',
    import_csv "c.csv" true fs Ex.two_idle
    = Ok (st', Some (Information "CSV" "Importação concluída."))
    /\ Permutation (clients (db st')) [Ex.caio; Ex.bea]
    /\ StronglySorted (fun a b => c_id a < c_id b) (clients (db st')).
Proof.
  intros fs.
  destruct week_db_exportable as (_ & Hc & Ha).
  cbn [Ex.week_db clients] in Hc.
  pose proof (import_csv_any_order "c.csv" fs [Ex.caio; Ex.bea]
                (appointments Ex.week_db) Ex.two_idle) as H.
  change (ids_distinct (map c_id [Ex.caio; Ex.bea])) with true in H.
  destruct H as (st' & H & Hp & Hs & _);
    [discriminate
    | constructor; [exact (Forall_inv (Forall_inv_tail Hc))
                   | constructor; [exact (Forall_inv Hc) | constructor]]
    | exact Ha | reflexivity | reflexivity |].
  exists st'. split; [exact H|]. split; [exact Hp | exact Hs].
Defined.

(** ** A date added from the form, as the digest reads it *)

Lemma unpack_ymd_iso (x : date) :
  0 < year x -> 0 <= month x -> 0 <= day x ->
  unpack_ymd (Q.toString_iso x) = Ok (year x, month x, day x).
Proof.
  intros Hy Hm Hd. unfold Q.toString_iso.
  replace (year x <? 0) with false by (symmetry; apply Z.ltb_ge; lia).
  rewrite Z.abs_eq by lia. cbn [append].
  destruct (str_nat_value (year x)) as (Ay & Ny & Vy); [lia|].
  destruct (str_nat_value (month x)) as (Am & Nm & Vm); [lia|].
  destruct (str_nat_value (day x)) as (Ad & Nd & Vd); [lia|].
  destruct (zfill_value 4 _ Ay Ny) as (Ay' & Ny' & Vy').
  destruct (zfill_value 2 _ Am Nm) as (Am' & Nm' & Vm').
  destruct (zfill_value 2 _ Ad Nd) as (Ad' & Nd' & Vd').
  rewrite unpack_ymd_digits by assumption.
  now rewrite Vy', Vm', Vd', Vy, Vm, Vd.
Qed.

Lemma edit_date_is_python_date (x : date) :
  Q.valid (year x) (month x) (day x) = true ->
  Q.in_edit_range x = true ->
  Dt.valid (year x) (month x) (day x) = true.
Proof.
  intros Hv Hr. destruct (edit_range_year x Hr) as (Hy & _ & B).
  assert (year x <= 9999) as Hmax.
  { assert (date_ltb Q.DATE_MAX x <> true) as B' by congruence.
    rewrite date_ltb_spec in B'. cbn [Q.DATE_MAX year month day] in B'. lia. }
  unfold Q.valid, Q.days_in_month, Q.leap_year in Hv.
  replace (year x <? 1) with false in Hv by (symmetry; apply Z.ltb_ge; lia).
  unfold Dt.valid, Dt.MINYEAR, Dt.MAXYEAR, days_in_month.
  rewrite !andb_true_iff in *. rewrite !Z.leb_le in *.
  destruct Hv as ((((_ & H1) & H2) & H3) & H4). repeat split; lia.
Qed.

(** X8.  The text [add_next_date] appends for the date shown in the next-date
    edit reads back as that date, renders as day/month/year, and is taken
    by the digest loop exactly when the date lies between today and the
    limit, both included. *)
Theorem added_date_in_digest
  (today limit : date) (f : form) (acc : list string) :
  Q.valid (year (dt_next f)) (month (dt_next f)) (day (dt_next f)) = true ->
  Q.in_edit_range (dt_next f) = true ->
  exists s,
    list_next (add_next_date f) = (list_next f ++ [s])%list
    /\ str_to_qdate s = Some (dt_next f)
    /\ human_date s
       = render_dmy (year (dt_next f)) (month (dt_next f)) (day (dt_next f))
    /\ week_step today limit acc s
       = Ok (if date_leb today (dt_next f) && date_leb (dt_next f) limit
             then (acc ++ [human_date s])%list else acc).
Proof.
  intros Hv Hr. set (x := dt_next f) in *.
  destruct (edit_range_year x Hr) as (Hy & _ & _).
  assert (1 <= month x /\ 1 <= day x) as [Hm Hd].
  { unfold Q.valid in Hv. rewrite !andb_true_iff, !Z.leb_le in Hv. lia. }
  pose proof (unpack_ymd_iso x ltac:(lia) ltac:(lia) ltac:(lia)) as Hu.
  exists (Q.toString_iso x). split; [reflexivity|].
  split; [apply str_to_qdate_iso; [exact Hv|lia]|].
  split.
  - unfold human_date. now rewrite Hu.
  - unfold week_step. rewrite Hu. cbn [bind].
    unfold Dt.date_. rewrite (edit_date_is_python_date x Hv Hr). cbn [bind].
    replace (mkDate (year x) (month x) (day x)) with x by now destruct x.
    destruct (date_leb today x && date_leb x limit); reflexivity.
Qed.

Lemma added_date_in_digest_witness :
  exists s,
    list_next (add_next_date Ex.blank) = [s]
    /\ week_step Ex.today (mkDate 2024 6 8) [] s = Ok [human_date s].
Proof.
  destruct (added_date_in_digest Ex.today (mkDate 2024 6 8) Ex.blank [])
    as (s & H1 & _ & _ & H4); [reflexivity | reflexivity |].
  exists s. split; [exact H1 | exact H4].
Defined.
